(** * ProtonX legal text service: classifier facade, OCR facade and HTTP layer

    A shallow embedding of [src/model.py], [src/ocr_model.py] and
    [src/api.py].  The pretrained transformer, the two OCR engines and the
    image decoder are external collaborators: they appear as the fields of
    the classes [Transformer], [OcrBackends] and [ImageDecoder], next to
    the [Settings]; every function of the service is written over them the
    way the Python code calls them.

    Numbers.  Python floats are idealised: tensor entries of the classifier
    are real numbers ([R], because softmax needs [exp]); OCR confidences are
    rationals ([Q]), which keeps the OCR facade executable.  Strings are
    handled bytewise; case folding and white space are the ASCII ones. *)

From Stdlib Require Import List String Ascii Bool Arith ZArith QArith Reals Lia Lra.
From Stdlib Require Import DecimalString.
From Stdlib Require Lqa.
Import ListNotations.

Close Scope Q_scope.
Open Scope nat_scope.

(* ================================================================== *)
(** * Part I: the program                                              *)
(* ================================================================== *)

(** ** Python primitives used by the service *)
Module Py.

(** Exceptions that occur in the service.  [BackendError] stands for any
    other subclass of [Exception] raised inside an external library. *)
Inductive exn : Type :=
| HTTPException (status_code : Z) (detail : string)
| RuntimeError (msg : string)
| ValueError (msg : string)
| IndexError (msg : string)
| AttributeError (msg : string)
| UnidentifiedImageError (msg : string)
| OSError (msg : string)
| BackendError (msg : string).

(** [str(e)] *)
Definition str_exn (e : exn) : string :=
  match e with
  | HTTPException _ d => d
  | RuntimeError m | ValueError m | IndexError m | AttributeError m
  | UnidentifiedImageError m | OSError m | BackendError m => m
  end.

Inductive result (A : Type) : Type :=
| Ok (a : A)
| Raise (e : exn).
Arguments Ok {A} a.
Arguments Raise {A} e.

Definition bind {A B} (c : result A) (k : A -> result B) : result B :=
  match c with
  | Ok a => k a
  | Raise e => Raise e
  end.

(** [str(n)] for integers *)
Definition str_nat (n : nat) : string := NilZero.string_of_uint (Nat.to_uint n).
Definition str_Z (z : Z) : string := NilZero.string_of_int (Z.to_int z).

(** [s.lower()] on ASCII letters *)
Definition is_upper (c : ascii) : bool :=
  let n := nat_of_ascii c in (65 <=? n) && (n <=? 90).

Definition lower_ascii (c : ascii) : ascii :=
  if is_upper c then ascii_of_nat (nat_of_ascii c + 32) else c.

Fixpoint lower (s : string) : string :=
  match s with
  | EmptyString => EmptyString
  | String c t => String (lower_ascii c) (lower t)
  end.

(** [s.strip()]: ASCII white space is tab, line feed, vertical tab, form
    feed, carriage return, the four separators 28..31 and the space. *)
Definition isspace (c : ascii) : bool :=
  let n := nat_of_ascii c in
  ((9 <=? n) && (n <=? 13)) || ((28 <=? n) && (n <=? 32)).

Fixpoint lstrip (s : string) : string :=
  match s with
  | EmptyString => EmptyString
  | String c t => if isspace c then lstrip t else s
  end.

Fixpoint rstrip (s : string) : string :=
  match s with
  | EmptyString => EmptyString
  | String c t =>
      match rstrip t with
      | EmptyString => if isspace c then EmptyString else String c EmptyString
      | t' => String c t'
      end
  end.

Definition strip (s : string) : string := rstrip (lstrip s).

(** Truth value of a string: [if s:] *)
Definition truthy (s : string) : bool :=
  match s with EmptyString => false | _ => true end.

(** [s.split(sep)] for a one-character separator *)
Fixpoint split (sep : ascii) (s : string) : list string :=
  match s with
  | EmptyString => [EmptyString]
  | String c t =>
      if Ascii.eqb c sep then EmptyString :: split sep t
      else match split sep t with
           | h :: r => String c h :: r
           | [] => [String c EmptyString]
           end
  end.

(** [l1 == l2] on lists of strings *)
Fixpoint list_eqb (l1 l2 : list string) : bool :=
  match l1, l2 with
  | [], [] => true
  | a :: r1, b :: r2 => String.eqb a b && list_eqb r1 r2
  | _, _ => false
  end.

(** [enumerate(l)] *)
Definition enumerate {A} (l : list A) : list (nat * A) :=
  combine (seq 0 (List.length l)) l.

(** [d.get(k, default)] on a dict with integer keys *)
Fixpoint dict_get (d : list (nat * string)) (k : nat) (default : string) : string :=
  match d with
  | [] => default
  | (k', v) :: t => if Nat.eqb k' k then v else dict_get t k default
  end.

(** [d[k] = v] on a dict with string keys: an existing key keeps its
    place and takes the new value, a new key goes last. *)
Fixpoint dict_set {V} (d : list (string * V)) (k : string) (v : V) : list (string * V) :=
  match d with
  | [] => [(k, v)]
  | (k', v') :: t =>
      if String.eqb k' k then (k', v) :: t else (k', v') :: dict_set t k v
  end.

End Py.

Notation "x <- c ;; k" := (Py.bind c (fun x => k))
  (at level 61, c at next level, right associativity).

(** ** [src/model.py] *)
Module Model.
Import Py.

(** The tokenizer and the pretrained sequence-classification model.
    [from_pretrained] is the outcome of loading them ([None]: loaded),
    [forward texts] is the [logits] tensor the model returns on the tokenized
    [texts] (truncated at 512 tokens, padded to a common length), one row of
    logits per text, and [id2label] is [model.config.id2label] when the
    configuration has that attribute. *)
Class Transformer : Type := {
  from_pretrained : option exn;
  forward : list string -> result (list (list R));
  id2label : option (list (nat * string))
}.

Record LegalTextClassifier : Type := {
  model_loaded : bool
}.

(** [LegalTextClassifier()] *)
Definition LegalTextClassifier__init__ : LegalTextClassifier :=
  {| model_loaded := false |}.

Record Prediction : Type := {
  predicted_class : nat;
  confidence : R;
  all_scores : list R;
  predicted_label : option string;
  all_labels : option (list (string * R))
}.

(** [sum] of a row and [torch.softmax(logits, dim=-1)] on one row *)
Definition Rsum (l : list R) : R := fold_right Rplus 0%R l.

Definition softmax (logits : list R) : list R :=
  let z := Rsum (map exp logits) in
  map (fun x => (exp x / z)%R) logits.

(** [torch.argmax(row, dim=-1)]: the first index that holds the maximum;
    an empty row has none. *)
Fixpoint argmax_from (l : list R) (i best_i : nat) (best : R) : nat :=
  match l with
  | [] => best_i
  | x :: t =>
      if Rlt_dec best x then argmax_from t (S i) i x
      else argmax_from t (S i) best_i best
  end.

Definition argmax (l : list R) : result nat :=
  match l with
  | [] => Raise (IndexError "argmax(): expected reduction dim to have non-zero size")
  | x :: t => Ok (argmax_from t 1 0 x)
  end.

(** [row[i]] *)
Definition index {A} (l : list A) (i : nat) : result A :=
  match nth_error l i with
  | Some a => Ok a
  | None => Raise (IndexError "index out of range")
  end.

Definition LABEL_ (i : nat) : string := String.append "LABEL_" (str_nat i).

Section WithTransformer.
Context {tf : Transformer}.

(** [load_model]: the result and the object afterwards *)
Definition load_model (self : LegalTextClassifier)
  : result unit * LegalTextClassifier :=
  match from_pretrained with
  | None => (Ok tt, {| model_loaded := true |})
  | Some e => (Raise e, self)
  end.

(** The dict comprehension
    [{id2label.get(i, f"LABEL_{i}"): score for i, score in enumerate(all_scores)}] *)
Definition label_scores (labels : list (nat * string)) (scores : list R)
  : list (string * R) :=
  fold_left (fun d p => dict_set d (dict_get labels (fst p) (LABEL_ (fst p))) (snd p))
            (enumerate scores) [].

(** [torch.argmax(t, dim=-1)] on a tensor of rows: one index per row *)
Fixpoint argmax_rows (t : list (list R)) : result (list nat) :=
  match t with
  | [] => Ok []
  | row :: rest =>
      k <- argmax row ;;
      ks <- argmax_rows rest ;;
      Ok (k :: ks)
  end.

(** [t.item()]: the tensor must hold exactly one element. *)
Definition item (t : list nat) : result nat :=
  match t with
  | [k] => Ok k
  | _ => Raise (RuntimeError "a Tensor with several elements cannot be converted to Scalar")
  end.

Definition predict (self : LegalTextClassifier) (text : string) : result Prediction :=
  if negb (model_loaded self) then
    Raise (RuntimeError "Model not loaded. Call load_model() first.")
  else
    logits <- forward [text] ;;
    let probabilities := map softmax logits in
    classes <- argmax_rows probabilities ;;
    predicted_class <- item classes ;;
    row0 <- index probabilities 0 ;;
    confidence <- index row0 predicted_class ;;
    let all_scores := row0 in
    match id2label with
    | Some ((_ :: _) as id2label) =>
        Ok {| predicted_class := predicted_class;
              confidence := confidence;
              all_scores := all_scores;
              predicted_label :=
                Some (dict_get id2label predicted_class (LABEL_ predicted_class));
              all_labels := Some (label_scores id2label all_scores) |}
    | _ =>
        Ok {| predicted_class := predicted_class;
              confidence := confidence;
              all_scores := all_scores;
              predicted_label := None;
              all_labels := None |}
    end.

(** The [for i in range(len(texts))] loop, [results] being the list that
    the loop appends to. *)
Fixpoint batch_loop (probabilities : list (list R)) (idxs : list nat)
    (results : list Prediction) : result (list Prediction) :=
  match idxs with
  | [] => Ok results
  | i :: rest =>
      row <- index probabilities i ;;
      predicted_class <- argmax row ;;
      confidence <- index row predicted_class ;;
      let all_scores := row in
      result <-
        match id2label with
        | Some ((_ :: _) as id2label) =>
            Ok {| predicted_class := predicted_class;
                  confidence := confidence;
                  all_scores := all_scores;
                  predicted_label :=
                    Some (dict_get id2label predicted_class (LABEL_ predicted_class));
                  all_labels := Some (label_scores id2label all_scores) |}
        | _ =>
            Ok {| predicted_class := predicted_class;
                  confidence := confidence;
                  all_scores := all_scores;
                  predicted_label := None;
                  all_labels := None |}
        end ;;
      batch_loop probabilities rest (results ++ [result])
  end.

Definition predict_batch (self : LegalTextClassifier) (texts : list string)
  : result (list Prediction) :=
  if negb (model_loaded self) then
    Raise (RuntimeError "Model not loaded. Call load_model() first.")
  else
    logits <- forward texts ;;
    let probabilities := map softmax logits in
    batch_loop probabilities (seq 0 (List.length texts)) [].

(** [get_model] over the module global [model_instance]: the result and
    the global afterwards.  The global is assigned before [load_model]
    runs, so a failed load leaves an unloaded instance behind. *)
Definition get_model (model_instance : option LegalTextClassifier)
  : result LegalTextClassifier * option LegalTextClassifier :=
  match model_instance with
  | Some m => (Ok m, model_instance)
  | None =>
      let '(r, m) := load_model LegalTextClassifier__init__ in
      match r with
      | Ok _ => (Ok m, Some m)
      | Raise e => (Raise e, Some m)
      end
  end.

End WithTransformer.
End Model.

(** ** [src/ocr_model.py] *)
Module OcrModel.
Import Py.

(** A bounding box: EasyOCR hands back the corner points it found, the
    Tesseract path builds [left, top, left + width, top + height]. *)
Inductive bbox : Type :=
| Quad (points : list (list Z))
| Rect (x0 y0 x1 y1 : Z).

(** One entry of ["lines"]: the keys ["text"], ["confidence"], ["bbox"]. *)
Record Line : Type := {
  line_text : string;
  line_confidence : Q;
  line_bbox : bbox
}.

(** The dict returned by [process_image]. *)
Record OCRResult : Type := {
  text : string;
  lines : list Line;
  average_confidence : Q;
  result_engine : string
}.

(** [pytesseract.image_to_data(..., output_type=Output.DICT)]: one list
    per column. *)
Record TessData : Type := {
  col_text : list string;
  col_conf : list Q;
  col_left : list Z;
  col_top : list Z;
  col_width : list Z;
  col_height : list Z
}.

(** The two OCR engines.  [readtext langs image] is
    [reader.readtext(np.array(image))] for a reader built for [langs]. *)
Class OcrBackends : Type := {
  Image : Type;
  EASYOCR_AVAILABLE : bool;
  PYTESSERACT_AVAILABLE : bool;
  easyocr_Reader : list string -> result unit;
  readtext : list string -> Image -> result (list (list (list Z) * string * Q));
  get_tesseract_version : result unit;
  image_to_string : Image -> string -> result string;
  image_to_data : Image -> string -> result TessData
}.

Record OCRProcessor : Type := {
  engine : string;
  languages : list string;
  reader : option (list string);
  _initialized : bool
}.

(** [languages or ['vi', 'en']] *)
Definition languages_or_default (languages : option (list string)) : list string :=
  match languages with
  | Some ((_ :: _) as l) => l
  | _ => ["vi"; "en"]%string
  end.

Definition OCRProcessor__init__ (engine : string) (languages : option (list string))
  : OCRProcessor :=
  {| engine := lower engine;
     languages := languages_or_default languages;
     reader := None;
     _initialized := false |}.

(** [int(x)] rounds towards zero. *)
Definition int_of (q : Q) : Z := Z.quot (Qnum q) (Zpos (Qden q)).

(** [sum(confidences)] adds from the left, starting at 0. *)
Definition py_sum (l : list Q) : Q := fold_left Qplus l 0%Q.

(** [sum(confidences) / len(confidences) if confidences else 0.0] *)
Definition average (confidences : list Q) : Q :=
  match confidences with
  | [] => 0%Q
  | _ :: _ => (py_sum confidences / inject_Z (Z.of_nat (List.length confidences)))%Q
  end.

(** The loop of [_process_with_easyocr] over the detections, with the
    three lists it appends to. *)
Fixpoint easyocr_loop (results : list (list (list Z) * string * Q))
    (texts : list Line) (confidences : list Q) (full_text : list string)
  : list Line * list Q * list string :=
  match results with
  | [] => (texts, confidences, full_text)
  | (box, t, c) :: rest =>
      easyocr_loop rest
        (texts ++ [{| line_text := t; line_confidence := c; line_bbox := Quad box |}])
        (confidences ++ [c])
        (full_text ++ [t])
  end.

(** [lang_map.get(lang, lang)] with [lang_map = {'vi': 'vie', 'en': 'eng'}] *)
Definition lang_map_get (lang : string) : string :=
  if String.eqb lang "vi" then "vie"%string
  else if String.eqb lang "en" then "eng"%string
  else lang.

(** The loop of [_process_with_tesseract] over [range(n_boxes)]. *)
Fixpoint tesseract_loop (data : TessData) (idxs : list nat)
    (lines : list Line) (confidences : list Q) : result (list Line * list Q) :=
  match idxs with
  | [] => Ok (lines, confidences)
  | i :: rest =>
      c <- Model.index (col_conf data) i ;;
      if (0 <? int_of c)%Z then
        t <- Model.index (col_text data) i ;;
        l <- Model.index (col_left data) i ;;
        tp <- Model.index (col_top data) i ;;
        w <- Model.index (col_width data) i ;;
        h <- Model.index (col_height data) i ;;
        tesseract_loop data rest
          (lines ++ [{| line_text := t;
                        line_confidence := (c / 100)%Q;
                        line_bbox := Rect l tp (l + w) (tp + h) |}])
          (confidences ++ [(c / 100)%Q])
      else tesseract_loop data rest lines confidences
  end.

Section WithBackends.
Context {ocr : OcrBackends}.

Definition initialize (self : OCRProcessor) : result unit * OCRProcessor :=
  if _initialized self then (Ok tt, self)
  else if String.eqb (engine self) "easyocr" then
    if negb EASYOCR_AVAILABLE then
      (Raise (RuntimeError "EasyOCR is not installed"), self)
    else
      match easyocr_Reader (languages self) with
      | Ok _ => (Ok tt, {| engine := engine self; languages := languages self;
                           reader := Some (languages self); _initialized := true |})
      | Raise e => (Raise e, self)
      end
  else if String.eqb (engine self) "tesseract" then
    if negb PYTESSERACT_AVAILABLE then
      (Raise (RuntimeError "pytesseract is not installed"), self)
    else
      match get_tesseract_version with
      | Ok _ => (Ok tt, {| engine := engine self; languages := languages self;
                           reader := reader self; _initialized := true |})
      | Raise e =>
          (Raise (RuntimeError
             (String.append
                "Tesseract executable not found. Please install tesseract-ocr. Original error: "
                (str_exn e))), self)
      end
  else (Raise (ValueError (String.append "Unknown OCR engine: " (engine self))), self).

Definition _process_with_easyocr (self : OCRProcessor) (image : Image)
  : result OCRResult :=
  match reader self with
  | None => Raise (AttributeError "'NoneType' object has no attribute 'readtext'")
  | Some langs =>
      results <- readtext langs image ;;
      let '(texts, confidences, full_text) := easyocr_loop results [] [] [] in
      Ok {| text := String.concat " " full_text;
            lines := texts;
            average_confidence := average confidences;
            result_engine := "easyocr" |}
  end.

(** ['+'.join([lang_map.get(lang, lang) for lang in self.languages])] *)
Definition lang_string (self : OCRProcessor) : string :=
  String.concat "+" (map lang_map_get (languages self)).

Definition _process_with_tesseract (self : OCRProcessor) (image : Image)
  : result OCRResult :=
  let lang_string := lang_string self in
  txt <- image_to_string image lang_string ;;
  data <- image_to_data image lang_string ;;
  let n_boxes := List.length (col_text data) in
  acc <- tesseract_loop data (seq 0 n_boxes) [] [] ;;
  let '(lines, confidences) := acc in
  Ok {| text := strip txt;
        lines := lines;
        average_confidence := average confidences;
        result_engine := "tesseract" |}.

(** [process_image]: the result and the processor object afterwards *)
Definition process_image (self : OCRProcessor) (image : Image)
  : result OCRResult * OCRProcessor :=
  let '(r, self) := if _initialized self then (Ok tt, self) else initialize self in
  match r with
  | Raise e => (Raise e, self)
  | Ok _ =>
      if String.eqb (engine self) "easyocr" then (_process_with_easyocr self image, self)
      else if String.eqb (engine self) "tesseract" then
        (_process_with_tesseract self image, self)
      else (Raise (ValueError (String.append "Unknown OCR engine: " (engine self))), self)
  end.

(** The module's state: the objects allocated so far (a reference is a
    position in [objects]) and the global [_ocr_processor]. *)
Record Globals : Type := {
  objects : list OCRProcessor;
  _ocr_processor : option nat
}.

Definition initial_globals : Globals := {| objects := []; _ocr_processor := None |}.

Definition deref (g : Globals) (ref : nat) : option OCRProcessor :=
  nth_error (objects g) ref.

Fixpoint store_at (l : list OCRProcessor) (ref : nat) (p : OCRProcessor)
  : list OCRProcessor :=
  match l, ref with
  | [], _ => []
  | _ :: t, O => p :: t
  | x :: t, S n => x :: store_at t n p
  end.

(** The branch that builds a processor: [_ocr_processor = OCRProcessor(...)]
    and then [_ocr_processor.initialize()].  The global is assigned before
    [initialize] runs. *)
Definition new_processor (engine_arg : string) (languages_arg : list string)
    (g : Globals) : result nat * Globals :=
  let ref := List.length (objects g) in
  let self := OCRProcessor__init__ engine_arg (Some languages_arg) in
  let '(r, self') := initialize self in
  let g' := {| objects := objects g ++ [self']; _ocr_processor := Some ref |} in
  match r with
  | Ok _ => (Ok ref, g')
  | Raise e => (Raise e, g')
  end.

(** [get_ocr_processor]: the reference it returns and the module state
    afterwards.  The test is [_ocr_processor is None or
    _ocr_processor.engine != engine or _ocr_processor.languages != languages]. *)
Definition get_ocr_processor (engine_arg : string) (languages_arg : option (list string))
    (g : Globals) : result nat * Globals :=
  let languages_arg := languages_or_default languages_arg in
  match _ocr_processor g with
  | None => new_processor engine_arg languages_arg g
  | Some ref =>
      match deref g ref with
      | None => (Raise (AttributeError "dangling reference"), g)
      | Some p =>
          if negb (String.eqb (engine p) engine_arg)
             || negb (list_eqb (languages p) languages_arg)
          then new_processor engine_arg languages_arg g
          else (Ok ref, g)
      end
  end.

(** A call [ocr_processor.process_image(image)] through a reference. *)
Definition call_process_image (ref : nat) (image : Image) (g : Globals)
  : result OCRResult * Globals :=
  match deref g ref with
  | None => (Raise (AttributeError "dangling reference"), g)
  | Some self =>
      let '(r, self') := process_image self image in
      (r, {| objects := store_at (objects g) ref self';
             _ocr_processor := _ocr_processor g |})
  end.

End WithBackends.
End OcrModel.

(** ** [src/api.py] *)
Module Api.
Import Py.

(** The fields of [settings] that the handlers read. *)
Class Settings : Type := {
  model_name : string;
  ocr_engine : string;
  ocr_languages : string;
  max_upload_size : Z
}.

(** [PIL.Image.open(io.BytesIO(data))] *)
Class ImageDecoder {ocr : OcrModel.OcrBackends} : Type := {
  Image_open : string -> result OcrModel.Image
}.

Record UploadFile : Type := {
  content_type : option string;
  file_data : string
}.

(** Calls into the decoder and the two facades, in the order they happen. *)
Inductive event : Type :=
| CallImageOpen
| CallGetOcrProcessor
| CallProcessImage
| CallGetModel
| CallPredict
| CallPredictBatch.

(** The state of the server process: the globals of the two facade
    modules and the calls made so far. *)
Record World : Type := {
  model_instance : option Model.LegalTextClassifier;
  ocr_globals : OcrModel.Globals;
  trace : list event
}.

Definition initial_world : World :=
  {| model_instance := None; ocr_globals := OcrModel.initial_globals; trace := [] |}.

(** Handlers run in a state monad over [World] whose results may raise;
    the state is kept when an exception is raised. *)
Definition M (A : Type) : Type := World -> result A * World.

Definition ret {A} (a : A) : M A := fun w => (Ok a, w).

Definition raise {A} (e : exn) : M A := fun w => (Raise e, w).

Definition bindM {A B} (c : M A) (k : A -> M B) : M B :=
  fun w =>
    match c w with
    | (Ok a, w') => k a w'
    | (Raise e, w') => (Raise e, w')
    end.

(** [try: body  except Exception as e: handler e] *)
Definition try_except {A} (body : M A) (handler : exn -> M A) : M A :=
  fun w =>
    match body w with
    | (Ok a, w') => (Ok a, w')
    | (Raise e, w') => handler e w'
    end.

Definition log (ev : event) : M unit :=
  fun w => (Ok tt, {| model_instance := model_instance w;
                      ocr_globals := ocr_globals w;
                      trace := trace w ++ [ev] |}).

Definition lift {A} (r : result A) : M A := fun w => (r, w).

Notation "x <~ c ;; k" := (bindM c (fun x => k))
  (at level 61, c at next level, right associativity).

Record HealthResponse : Type := {
  status : string;
  health_model_loaded : bool
}.

Record OCRWithClassificationResponse : Type := {
  ocr_result : OcrModel.OCRResult;
  classification : option Model.Prediction
}.

Section WithService.
Context {settings : Settings} {tf : Model.Transformer}
        {ocr : OcrModel.OcrBackends} {pil : ImageDecoder}.

(** Calls into [src/model.py] *)
Definition get_model : M Model.LegalTextClassifier :=
  _ <~ log CallGetModel ;;
  fun w =>
    let '(r, mi) := Model.get_model (model_instance w) in
    (r, {| model_instance := mi; ocr_globals := ocr_globals w; trace := trace w |}).

Definition model_predict (model : Model.LegalTextClassifier) (text : string)
  : M Model.Prediction :=
  _ <~ log CallPredict ;; lift (Model.predict model text).

Definition model_predict_batch (model : Model.LegalTextClassifier) (texts : list string)
  : M (list Model.Prediction) :=
  _ <~ log CallPredictBatch ;; lift (Model.predict_batch model texts).

(** Calls into [src/ocr_model.py] *)
Definition get_ocr_processor (engine : string) (languages : option (list string))
  : M nat :=
  _ <~ log CallGetOcrProcessor ;;
  fun w =>
    let '(r, g) := OcrModel.get_ocr_processor engine languages (ocr_globals w) in
    (r, {| model_instance := model_instance w; ocr_globals := g; trace := trace w |}).

Definition process_image (ocr_processor : nat) (image : OcrModel.Image)
  : M OcrModel.OCRResult :=
  _ <~ log CallProcessImage ;;
  fun w =>
    let '(r, g) := OcrModel.call_process_image ocr_processor image (ocr_globals w) in
    (r, {| model_instance := model_instance w; ocr_globals := g; trace := trace w |}).

(** [GET /health] *)
Definition health : M HealthResponse :=
  try_except
    (model <~ get_model ;;
     ret {| status := "healthy"; health_model_loaded := Model.model_loaded model |})
    (fun e => raise (HTTPException 503
                       (String.append "Service unhealthy: " (str_exn e)))).

(** [POST /predict]; the request schema has already rejected an empty text. *)
Definition predict (text : string) : M Model.Prediction :=
  try_except
    (model <~ get_model ;;
     result <~ model_predict model text ;;
     ret result)
    (fun e => raise (HTTPException 500
                       (String.append "Prediction failed: " (str_exn e)))).

(** [POST /predict/batch] *)
Definition predict_batch (texts : list string) : M (list Model.Prediction) :=
  try_except
    (model <~ get_model ;;
     results <~ model_predict_batch model texts ;;
     ret results)
    (fun e => raise (HTTPException 500
                       (String.append "Batch prediction failed: " (str_exn e)))).

(** [not file.content_type or not file.content_type.startswith('image/')] *)
Definition not_an_image (file : UploadFile) : bool :=
  match content_type file with
  | None => true
  | Some ct => negb (truthy ct) || negb (String.prefix "image/" ct)
  end.

Definition open_image (image_data : string) : M OcrModel.Image :=
  _ <~ log CallImageOpen ;; lift (Image_open image_data).

Definition validate_and_load_image (file : UploadFile) : M OcrModel.Image :=
  if not_an_image file then
    raise (HTTPException 400 "File must be an image")
  else
    let image_data := file_data file in
    if (max_upload_size <? Z.of_nat (String.length image_data))%Z then
      raise (HTTPException 413
               (String.append "File too large. Maximum size: "
                  (String.append (str_Z max_upload_size) " bytes")))
    else
      try_except (open_image image_data)
        (fun e =>
           match e with
           | UnidentifiedImageError _ | OSError _ =>
               raise (HTTPException 400
                        (String.append "Invalid image file: " (str_exn e)))
           | _ => raise e
           end).

Definition get_configured_ocr_processor : M nat :=
  let languages := map strip (split "," ocr_languages) in
  get_ocr_processor ocr_engine (Some languages).

(** The two [except] clauses that close both upload handlers *)
Definition ocr_except {A} (e : exn) : M A :=
  match e with
  | HTTPException _ _ => raise e
  | _ => raise (HTTPException 500
                  (String.append "OCR processing failed: " (str_exn e)))
  end.

(** [POST /ocr/upload] *)
Definition ocr_upload (file : UploadFile) : M OcrModel.OCRResult :=
  try_except
    (image <~ validate_and_load_image file ;;
     ocr_processor <~ get_configured_ocr_processor ;;
     result <~ process_image ocr_processor image ;;
     ret result)
    ocr_except.

(** The first three steps of [ocr_upload_and_classify], up to the OCR
    result. *)
Definition run_ocr (file : UploadFile) : M OcrModel.OCRResult :=
  image <~ validate_and_load_image file ;;
  ocr_processor <~ get_configured_ocr_processor ;;
  process_image ocr_processor image.

(** The body of the inner [try] of [ocr_upload_and_classify] *)
Definition classify_text (txt : string) : M Model.Prediction :=
  model <~ get_model ;;
  model_predict model txt.

(** [POST /ocr/upload-and-classify] *)
Definition ocr_upload_and_classify (file : UploadFile)
  : M OCRWithClassificationResponse :=
  try_except
    (ocr_result <~ run_ocr file ;;
     classification <~
       (if truthy (strip (OcrModel.text ocr_result)) then
          try_except
            (c <~ classify_text (OcrModel.text ocr_result) ;; ret (Some c))
            (fun _ => ret None)
        else ret None) ;;
     ret {| ocr_result := ocr_result; classification := classification |})
    ocr_except.

(** The startup half of [lifespan]: load the model, log and re-raise on
    failure. *)
Definition lifespan_startup : M unit :=
  try_except (model <~ get_model ;; ret tt) (fun e => raise e).

End WithService.
End Api.

(** ** Vocabulary of the properties *)

Module ModelSpec.
Import Py Model.

(** The result dict that belongs to one row of probabilities: the first
    index of its maximum, the entry there, the row, and the labels when
    the model has any. *)
Definition row_result {tf : Transformer} (row : list R) : result Prediction :=
  pc <- argmax row ;;
  conf <- index row pc ;;
  Ok {| predicted_class := pc;
        confidence := conf;
        all_scores := row;
        predicted_label :=
          match id2label with
          | Some ((_ :: _) as labels) => Some (dict_get labels pc (LABEL_ pc))
          | _ => None
          end;
        all_labels :=
          match id2label with
          | Some ((_ :: _) as labels) => Some (label_scores labels row)
          | _ => None
          end |}.

(** [k] is the first position of [l] that holds its maximum. *)
Definition is_first_max (l : list R) (k : nat) : Prop :=
  k < List.length l
  /\ (forall j, j < List.length l -> (nth j l 0 <= nth k l 0)%R)
  /\ (forall j, j < k -> (nth j l 0 < nth k l 0)%R).


(** [id2label.get(i, f"LABEL_{i}")] *)
Definition label_name (labels : list (nat * string)) (i : nat) : string :=
  dict_get labels i (LABEL_ i).

(** [d.get(k)] on a dict with string keys *)
Fixpoint dict_lookup {V} (d : list (string * V)) (k : string) : option V :=
  match d with
  | [] => None
  | (k', v) :: t => if String.eqb k' k then Some v else dict_lookup t k
  end.

End ModelSpec.

Module OcrSpec.
Import Py OcrModel.

(** A confidence on the unit scale *)
Definition unit_scale (q : Q) : Prop := (0 <= q)%Q /\ (q <= 1)%Q.

(** The arithmetic mean, as a sum from the right over the count *)
Definition mean (l : list Q) : Q :=
  (fold_right Qplus 0 l / inject_Z (Z.of_nat (List.length l)))%Q.

(** The dict [_process_with_easyocr] appends for one detection *)
Definition easyocr_line (d : list (list Z) * string * Q) : Line :=
  let '(box, t, c) := d in
  {| line_text := t; line_confidence := c; line_bbox := Quad box |}.

(** The columns of a [TessData] all have [n] entries. *)
Definition columns_of_length (data : TessData) (n : nat) : Prop :=
  List.length (col_text data) = n /\ List.length (col_conf data) = n
  /\ List.length (col_left data) = n /\ List.length (col_top data) = n
  /\ List.length (col_width data) = n /\ List.length (col_height data) = n.

(** Box [i] passes the test [int(data['conf'][i]) > 0]. *)
Definition kept (data : TessData) (i : nat) : bool :=
  match nth_error (col_conf data) i with
  | Some c => (0 <? int_of c)%Z
  | None => false
  end.

(** [ln] is the dict built from box [i]: its text, its confidence over
    100 and its corners. *)
Definition line_of_box (data : TessData) (i : nat) (ln : Line) : Prop :=
  exists c l tp w h,
    nth_error (col_conf data) i = Some c
    /\ nth_error (col_text data) i = Some (line_text ln)
    /\ nth_error (col_left data) i = Some l
    /\ nth_error (col_top data) i = Some tp
    /\ nth_error (col_width data) i = Some w
    /\ nth_error (col_height data) i = Some h
    /\ line_confidence ln = (c / 100)%Q
    /\ line_bbox ln = Rect l tp (l + w) (tp + h).

(** The global, when set, refers to an allocated processor. *)
Definition globals_wf (g : Globals) : Prop :=
  forall ref, _ocr_processor g = Some ref -> ref < List.length (objects g).

(** An engine name that is neither of the two the service knows *)
Definition unknown_engine (e : string) : Prop :=
  e <> "easyocr"%string /\ e <> "tesseract"%string.

(** The module state after [n] calls of [get_ocr_processor], one after the
    other, with the same arguments. *)
Definition repeat_get {ocr : OcrBackends} (e : string) (l : option (list string))
    (n : nat) (g : Globals) : Globals :=
  Nat.iter n (fun g => snd (get_ocr_processor e l g)) g.

(** A well-formed rectangle: left of right, top above bottom. *)
Definition ordered_box (b : bbox) : Prop :=
  match b with
  | Rect x0 y0 x1 y1 => (x0 <= x1)%Z /\ (y0 <= y1)%Z
  | Quad _ => False
  end.

End OcrSpec.

Module ApiSpec.
Import Py Api.

Definition classifier_event (ev : event) : bool :=
  match ev with
  | CallGetModel | CallPredict | CallPredictBatch => true
  | _ => false
  end.

Definition ocr_event (ev : event) : bool :=
  match ev with
  | CallGetOcrProcessor | CallProcessImage => true
  | _ => false
  end.

(** [c] leaves the classifier global alone and only adds events that
    satisfy [P] to the trace. *)
Definition only_logs {A} (P : event -> bool) (c : M A) : Prop :=
  forall w, model_instance (snd (c w)) = model_instance w
            /\ exists evs, trace (snd (c w)) = trace w ++ evs /\ forallb P evs = true.

(** The handler answers with the status [code] and leaves the globals of
    both facades as they were, adding [evs] to the trace. *)
Definition rejected {A} (c : M A) (w : World) (code : Z) (evs : list event) : Prop :=
  exists detail,
    c w = (Raise (HTTPException code detail),
           {| model_instance := model_instance w;
              ocr_globals := ocr_globals w;
              trace := trace w ++ evs |}).

(** [Image.open] raises one of the two exceptions the handler catches. *)
Definition decode_fails {ocr : OcrModel.OcrBackends} {pil : ImageDecoder}
    (data : string) : Prop :=
  exists m, Image_open data = Raise (UnidentifiedImageError m)
            \/ Image_open data = Raise (OSError m).

(** The answer is a normal one or an [HTTPException] whose status is in
    [codes]. *)
Definition answers_with {A} (codes : list Z) (r : result A) : Prop :=
  match r with
  | Ok _ => True
  | Raise (HTTPException code _) => In code codes
  | Raise _ => False
  end.

(** The answer is a normal one or some [HTTPException]. *)
Definition answers_http {A} (r : result A) : Prop :=
  match r with
  | Ok _ => True
  | Raise (HTTPException _ _) => True
  | Raise _ => False
  end.

(** An exception that neither [validate_and_load_image] nor the upload
    handlers treat specially. *)
Definition other_exception (e : exn) : Prop :=
  match e with
  | HTTPException _ _ | UnidentifiedImageError _ | OSError _ => False
  | _ => True
  end.

(** [c] leaves a classifier instance that is in the global where it is. *)
Definition keeps_model {A} (m : Model.LegalTextClassifier) (c : M A) : Prop :=
  forall w, model_instance w = Some m -> model_instance (snd (c w)) = Some m.

(** Requests to the endpoints that are modelled, and the state of the
    process after serving one or several of them in turn. *)
Inductive request : Type :=
| GetHealth
| PostPredict (text : string)
| PostPredictBatch (texts : list string)
| PostOcrUpload (file : UploadFile)
| PostOcrUploadAndClassify (file : UploadFile).

Definition serve {settings : Settings} {tf : Model.Transformer}
    {ocr : OcrModel.OcrBackends} {pil : ImageDecoder}
    (rq : request) (w : World) : World :=
  match rq with
  | GetHealth => snd (health w)
  | PostPredict text => snd (predict text w)
  | PostPredictBatch texts => snd (predict_batch texts w)
  | PostOcrUpload file => snd (ocr_upload file w)
  | PostOcrUploadAndClassify file => snd (ocr_upload_and_classify file w)
  end.

Definition serve_all {settings : Settings} {tf : Model.Transformer}
    {ocr : OcrModel.OcrBackends} {pil : ImageDecoder}
    (rqs : list request) (w : World) : World :=
  fold_left (fun w rq => serve rq w) rqs w.

End ApiSpec.

(** ** Concrete collaborators, used to run the definitions *)
Module Samples.
Import Py.

(** A two-label model whose second logit grows with the length of the
    text; every row depends on its own text only. *)
Definition two_label_model : Model.Transformer :=
  {| Model.from_pretrained := None;
     Model.forward := fun texts =>
       Ok (map (fun t => [0%R; INR (String.length t)]) texts);
     Model.id2label := Some [(0, "LABEL_A"%string); (1, "LABEL_B"%string)] |}.

(** A model whose weights cannot be fetched. *)
Definition unreachable_model : Model.Transformer :=
  {| Model.from_pretrained := Some (OSError "Can't load tokenizer");
     Model.forward := fun _ => Raise (RuntimeError "no model");
     Model.id2label := None |}.

Definition loaded : Model.LegalTextClassifier := {| Model.model_loaded := true |}.

(** What Tesseract reports for a small scan: a page-level box (confidence
    -1), two words, and a box it is unsure about. *)
Definition scan_data : OcrModel.TessData :=
  {| OcrModel.col_text := [""; "Dieu"; "1."; "~"]%string;
     OcrModel.col_conf := [(-1)%Q; 96%Q; (913 # 10)%Q; 0%Q];
     OcrModel.col_left := [0; 4; 40; 60]%Z;
     OcrModel.col_top := [0; 2; 2; 2]%Z;
     OcrModel.col_width := [100; 30; 12; 5]%Z;
     OcrModel.col_height := [20; 12; 12; 12]%Z |}.

(** Both engines installed; images are their own bytes. *)
Definition engines : OcrModel.OcrBackends :=
  {| OcrModel.Image := string;
     OcrModel.EASYOCR_AVAILABLE := true;
     OcrModel.PYTESSERACT_AVAILABLE := true;
     OcrModel.easyocr_Reader := fun _ => Ok tt;
     OcrModel.readtext := fun _ image =>
       if String.eqb image "PNG blank" then Ok []
       else
         Ok [([[0; 0]; [40; 0]; [40; 12]; [0; 12]]%Z, "Dieu 1."%string, (9 # 10)%Q);
             ([[0; 14]; [60; 14]; [60; 26]; [0; 26]]%Z, "Pham vi"%string, (1 # 2)%Q)];
     OcrModel.get_tesseract_version := Ok tt;
     OcrModel.image_to_string := fun _ _ => Ok " Dieu 1.  "%string;
     OcrModel.image_to_data := fun _ _ => Ok scan_data |}.

Definition easyocr_processor : OcrModel.OCRProcessor :=
  {| OcrModel.engine := "easyocr"; OcrModel.languages := ["vi"; "en"]%string;
     OcrModel.reader := Some ["vi"; "en"]%string; OcrModel._initialized := true |}.

Definition tesseract_processor : OcrModel.OCRProcessor :=
  {| OcrModel.engine := "tesseract"; OcrModel.languages := ["vi"; "en"]%string;
     OcrModel.reader := None; OcrModel._initialized := true |}.

Definition settings : Api.Settings :=
  {| Api.model_name := "protonx-models/protonx-legal-tc";
     Api.ocr_engine := "easyocr";
     Api.ocr_languages := "vi,en";
     Api.max_upload_size := 10 * 1024 * 1024 |}.

(** The same with an upload limit of eight bytes. *)
Definition tight_settings : Api.Settings :=
  {| Api.model_name := "protonx-models/protonx-legal-tc";
     Api.ocr_engine := "easyocr";
     Api.ocr_languages := "vi,en";
     Api.max_upload_size := 8 |}.

(** A decoder that knows one signature. *)
Definition pillow : @Api.ImageDecoder engines :=
  {| Api.Image_open := fun data =>
       if String.prefix "PNG" data then @Ok (@OcrModel.Image engines) data
       else Raise (UnidentifiedImageError "cannot identify image file") |}.

Definition scan_upload : Api.UploadFile :=
  {| Api.content_type := Some "image/png"%string; Api.file_data := "PNG scan" |}.

Definition blank_upload : Api.UploadFile :=
  {| Api.content_type := Some "image/png"%string; Api.file_data := "PNG blank" |}.

Definition text_upload : Api.UploadFile :=
  {| Api.content_type := Some "text/plain"%string; Api.file_data := "Dieu 1." |}.

Definition long_upload : Api.UploadFile :=
  {| Api.content_type := Some "image/png"%string;
     Api.file_data := "PNG scan of a whole page" |}.

Definition broken_upload : Api.UploadFile :=
  {| Api.content_type := Some "image/jpeg"%string; Api.file_data := "JFIF?" |}.

(** An EasyOCR that finds two regions and reads nothing in them. *)
Definition smudge_engines : OcrModel.OcrBackends :=
  {| OcrModel.Image := string;
     OcrModel.EASYOCR_AVAILABLE := true;
     OcrModel.PYTESSERACT_AVAILABLE := false;
     OcrModel.easyocr_Reader := fun _ => Ok tt;
     OcrModel.readtext := fun _ _ =>
       Ok [([[0; 0]; [4; 0]; [4; 4]; [0; 4]]%Z, ""%string, (1 # 10)%Q);
           ([[8; 0]; [12; 0]; [12; 4]; [8; 4]]%Z, ""%string, (2 # 10)%Q)];
     OcrModel.get_tesseract_version := Raise (OSError "tesseract is not installed");
     OcrModel.image_to_string := fun _ _ => Raise (OSError "tesseract is not installed");
     OcrModel.image_to_data := fun _ _ => Raise (OSError "tesseract is not installed") |}.

Definition smudge_pillow : @Api.ImageDecoder smudge_engines :=
  {| Api.Image_open := fun data => @Ok (@OcrModel.Image smudge_engines) data |}.

(** A decoder that refuses images it finds too large. *)
Definition wary_pillow : @Api.ImageDecoder engines :=
  {| Api.Image_open := fun _ =>
       Raise (BackendError "Image size exceeds limit, could be decompression bomb") |}.

(** Settings that name an engine the service does not know. *)
Definition paddle_settings : Api.Settings :=
  {| Api.model_name := "protonx-models/protonx-legal-tc";
     Api.ocr_engine := "PaddleOCR";
     Api.ocr_languages := "vi,en";
     Api.max_upload_size := 10 * 1024 * 1024 |}.

(** Settings with no language configured. *)
Definition no_language_settings : Api.Settings :=
  {| Api.model_name := "protonx-models/protonx-legal-tc";
     Api.ocr_engine := "easyocr";
     Api.ocr_languages := "";
     Api.max_upload_size := 10 * 1024 * 1024 |}.

(** An upload of exactly eight bytes. *)
Definition eight_byte_upload : Api.UploadFile :=
  {| Api.content_type := Some "image/png"%string; Api.file_data := "PNG scan" |}.

(** A model with a single label: every text gets the one class. *)
Definition single_label_model : Model.Transformer :=
  {| Model.from_pretrained := None;
     Model.forward := fun texts => Ok (map (fun _ => [0%R]) texts);
     Model.id2label := Some [(0, "LEGAL"%string)] |}.

(** An EasyOCR run on an image whose pixel data is cut short: converting
    the image to an array, the first step of [readtext] in the model,
    raises the error Pillow raises when it loads such a file. *)
Definition truncating_engines : OcrModel.OcrBackends :=
  {| OcrModel.Image := string;
     OcrModel.EASYOCR_AVAILABLE := true;
     OcrModel.PYTESSERACT_AVAILABLE := false;
     OcrModel.easyocr_Reader := fun _ => Ok tt;
     OcrModel.readtext := fun _ _ =>
       Raise (OSError "image file is truncated (12 bytes not processed)");
     OcrModel.get_tesseract_version := Raise (OSError "tesseract is not installed");
     OcrModel.image_to_string := fun _ _ => Raise (OSError "tesseract is not installed");
     OcrModel.image_to_data := fun _ _ => Raise (OSError "tesseract is not installed") |}.

(** A decoder that, like [Image.open], looks at the header only. *)
Definition header_pillow : @Api.ImageDecoder truncating_engines :=
  {| Api.Image_open := fun data =>
       if String.prefix "PNG" data then @Ok (@OcrModel.Image truncating_engines) data
       else Raise (UnidentifiedImageError "cannot identify image file") |}.

(** A PNG with a sound header and half of its pixel data. *)
Definition truncated_upload : Api.UploadFile :=
  {| Api.content_type := Some "image/png"%string; Api.file_data := "PNG sca" |}.

End Samples.

(* ================================================================== *)
(** * Part II: properties                                              *)
(* ================================================================== *)

(** ** Python primitives *)
Module PyFacts.
Import Py.

Example lower_mixed_case : lower "EasyOCR" = "easyocr"%string.
Proof. reflexivity. Qed.

Example lower_keeps_lower_case : lower "tesseract" = "tesseract"%string.
Proof. reflexivity. Qed.

Example strip_both_ends :
  strip (String.append "  Dieu 1. " (String "010"%char EmptyString))
  = "Dieu 1."%string.
Proof. reflexivity. Qed.

Example strip_blank : strip "   " = EmptyString.
Proof. reflexivity. Qed.

Example split_languages : split "," "vi,en" = ["vi"; "en"]%string.
Proof. reflexivity. Qed.

Example split_empty : split "," "" = [EmptyString].
Proof. reflexivity. Qed.

Example split_then_strip :
  map strip (split "," "vi, en ,") = ["vi"; "en"; ""]%string.
Proof. reflexivity. Qed.

Example str_Z_limit : str_Z (10 * 1024 * 1024) = "10485760"%string.
Proof. reflexivity. Qed.

Example dict_get_default : dict_get [(0, "A"%string)] 3 "LABEL_3" = "LABEL_3"%string.
Proof. reflexivity. Qed.

Example dict_set_overwrites :
  dict_set (dict_set (dict_set [] "a" 1) "b" 2) "a" 3 = [("a"%string, 3); ("b"%string, 2)].
Proof. reflexivity. Qed.

Lemma strip_empty : strip EmptyString = EmptyString.
Proof. reflexivity. Qed.

Lemma list_eqb_refl (l : list string) : list_eqb l l = true.
Proof.
  induction l as [|x t IH]; simpl; [reflexivity|].
  rewrite String.eqb_refl, IH. reflexivity.
Qed.

End PyFacts.

(** ** The classifier facade *)
Module ModelFacts.
Import Py Model ModelSpec.

Lemma Rsum_exp_pos (l : list R) : l <> [] -> (0 < Rsum (map exp l))%R.
Proof.
  destruct l as [|x t]; [congruence|intros _].
  revert x; induction t as [|y t IH]; intros x; simpl.
  - pose proof (exp_pos x); lra.
  - specialize (IH y); simpl in IH. pose proof (exp_pos x); lra.
Qed.

Lemma Rsum_map_div (z : R) (l : list R) :
  Rsum (map (fun x => (exp x / z)%R) l) = (Rsum (map exp l) / z)%R.
Proof.
  induction l as [|x t IH]; simpl.
  - unfold Rdiv; ring.
  - rewrite IH. unfold Rdiv; ring.
Qed.

Lemma softmax_sum (l : list R) : l <> [] -> Rsum (softmax l) = 1%R.
Proof.
  intros Hl. unfold softmax. rewrite Rsum_map_div.
  pose proof (Rsum_exp_pos l Hl). field. lra.
Qed.

Lemma softmax_length (l : list R) : List.length (softmax l) = List.length l.
Proof. unfold softmax. apply length_map. Qed.

Lemma softmax_nonempty (l : list R) : l <> [] -> softmax l <> [].
Proof. destruct l; [congruence|discriminate]. Qed.

Lemma argmax_from_spec (t : list R) :
  forall (pre : list R) (i best_i : nat) (best : R),
    List.length pre = i ->
    best_i < i ->
    nth best_i pre 0%R = best ->
    (forall j, j < i -> (nth j pre 0 <= best)%R) ->
    (forall j, j < best_i -> (nth j pre 0 < best)%R) ->
    is_first_max (pre ++ t) (argmax_from t i best_i best).
Proof.
  induction t as [|x t IH]; intros pre i bi b Hlen Hbi Hnth Hle Hlt.
  - simpl. rewrite app_nil_r. subst b. repeat split.
    + lia.
    + intros j Hj. apply Hle. lia.
    + exact Hlt.
  - simpl. replace (pre ++ x :: t) with ((pre ++ [x]) ++ t)
      by (rewrite <- app_assoc; reflexivity).
    assert (Hx : nth i (pre ++ [x]) 0%R = x).
    { rewrite app_nth2 by lia. rewrite Hlen, Nat.sub_diag. reflexivity. }
    assert (Hpre : forall j, j < i -> nth j (pre ++ [x]) 0%R = nth j pre 0%R).
    { intros j Hj. apply app_nth1. lia. }
    destruct (Rlt_dec b x) as [Hbx|Hbx].
    + apply IH.
      * rewrite length_app; simpl; lia.
      * lia.
      * exact Hx.
      * intros j Hj. destruct (Nat.eq_dec j i) as [->|Hne].
        -- rewrite Hx. lra.
        -- rewrite Hpre by lia. specialize (Hle j ltac:(lia)). lra.
      * intros j Hj. rewrite Hpre by lia. specialize (Hle j ltac:(lia)). lra.
    + apply IH.
      * rewrite length_app; simpl; lia.
      * lia.
      * rewrite Hpre by lia. exact Hnth.
      * intros j Hj. destruct (Nat.eq_dec j i) as [->|Hne].
        -- rewrite Hx. lra.
        -- rewrite Hpre by lia. apply Hle. lia.
      * intros j Hj. rewrite Hpre by lia. apply Hlt. exact Hj.
Qed.

Lemma argmax_spec (l : list R) :
  l <> [] -> exists k, argmax l = Ok k /\ is_first_max l k.
Proof.
  destruct l as [|x t]; [congruence|intros _].
  exists (argmax_from t 1 0 x). split; [reflexivity|].
  apply (argmax_from_spec t [x] 1 0 x); simpl; try lia; try reflexivity.
  intros j Hj. assert (j = 0) by lia. subst. simpl. lra.
Qed.

Section WithTransformer.
Context {tf : Transformer}.

(** What [row_result] makes of a non-empty row of probabilities. *)
Lemma row_result_spec (row : list R) :
  row <> [] ->
  exists r, row_result row = Ok r
    /\ all_scores r = row
    /\ is_first_max row (predicted_class r)
    /\ nth_error row (predicted_class r) = Some (confidence r).
Proof.
  intros Hrow. destruct (argmax_spec row Hrow) as [k [Hk Hmax]].
  unfold row_result. rewrite Hk. simpl.
  destruct (nth_error row k) as [c|] eqn:Hc.
  - unfold index. rewrite Hc. cbn [bind].
    eexists. split; [reflexivity|]. cbn. auto.
  - apply nth_error_None in Hc. destruct Hmax as [Hlt _]. lia.
Qed.

Lemma predict_unfold (self : LegalTextClassifier) (text : string) (logits : list R) :
  model_loaded self = true ->
  forward [text] = Ok [logits] ->
  predict self text = row_result (softmax logits).
Proof.
  intros Hl Hf. unfold predict, row_result. rewrite Hl, Hf.
  cbn [negb bind map argmax_rows].
  destruct (argmax (softmax logits)) as [pc|e]; cbn [bind item]; [|reflexivity].
  unfold index. cbn [nth_error bind].
  destruct (nth_error (softmax logits) pc) as [conf|]; cbn [bind]; [|reflexivity].
  destruct id2label as [[|lbl lbls]|]; reflexivity.
Qed.

(** One turn of the loop of [predict_batch] appends the result dict of
    row [i]. *)
Lemma batch_loop_step (probabilities : list (list R)) (i : nat) (rest : list nat)
    (results : list Prediction) (row : list R) (r : Prediction) :
  nth_error probabilities i = Some row ->
  row_result row = Ok r ->
  batch_loop probabilities (i :: rest) results
  = batch_loop probabilities rest (results ++ [r]).
Proof.
  intros Hrow Hr. cbn [batch_loop]. unfold index at 1. rewrite Hrow. cbn [bind].
  unfold row_result in Hr.
  destruct (argmax row) as [pc|e]; cbn [bind] in *; [|discriminate].
  destruct (index row pc) as [conf|e]; cbn [bind] in *; [|discriminate].
  injection Hr as <-.
  destruct id2label as [[|lbl lbls]|]; reflexivity.
Qed.

Lemma batch_loop_spec (probabilities : list (list R)) (idxs : list nat) :
  forall results,
    (forall i, In i idxs ->
       exists row, nth_error probabilities i = Some row /\ row <> []) ->
    exists rs,
      batch_loop probabilities idxs results = Ok (results ++ rs)
      /\ List.length rs = List.length idxs
      /\ forall k i, nth_error idxs k = Some i ->
           exists row r, nth_error probabilities i = Some row
                         /\ row_result row = Ok r
                         /\ nth_error rs k = Some r.
Proof.
  induction idxs as [|i rest IH]; intros results Hrows.
  - exists []. rewrite app_nil_r. repeat split; auto.
    intros k i Hk. destruct k; discriminate.
  - destruct (Hrows i (or_introl eq_refl)) as [row [Hrow Hne]].
    destruct (row_result_spec row Hne) as [r [Hr _]].
    destruct (IH (results ++ [r])) as [rs [Hloop [Hlen Hnth]]].
    { intros j Hj. apply Hrows. right. exact Hj. }
    exists (r :: rs). rewrite (batch_loop_step _ _ _ _ _ _ Hrow Hr).
    rewrite Hloop, <- app_assoc. simpl. repeat split; auto.
    intros k j Hk. destruct k as [|k].
    + simpl in Hk. injection Hk as <-. exists row, r. auto.
    + simpl in Hk. simpl. apply Hnth. exact Hk.
Qed.

(** C1. On a loaded classifier whose model returns one non-empty row of
    logits for the text, [predict] returns a result whose [all_scores] sum
    to 1 (exactly, floats being idealised as reals), whose
    [predicted_class] is the index of the maximum of [all_scores] (the
    first one), and whose [confidence] is [all_scores[predicted_class]].
    Nothing here needs the text to be non-empty. *)
Theorem predict_distribution (self : LegalTextClassifier) (text : string)
    (logits : list R) :
  model_loaded self = true ->
  forward [text] = Ok [logits] ->
  logits <> [] ->
  exists r, predict self text = Ok r
    /\ Rsum (all_scores r) = 1%R
    /\ is_first_max (all_scores r) (predicted_class r)
    /\ nth_error (all_scores r) (predicted_class r) = Some (confidence r).
Proof.
  intros Hl Hf Hne.
  rewrite (predict_unfold self text logits Hl Hf).
  destruct (row_result_spec (softmax logits) (softmax_nonempty logits Hne))
    as [r [Hr [Hs [Hmax Hconf]]]].
  exists r. rewrite Hs. split; [exact Hr|]. split; [|split].
  - apply softmax_sum; exact Hne.
  - exact Hmax.
  - exact Hconf.
Qed.

(** C2. On a loaded classifier, when the model returns one non-empty row
    of logits per text and the row of a text does not depend on the batch
    it is padded into, [predict_batch] returns one result per input, in
    order, and the result at each index is the one [predict] returns on
    that text alone. *)
Theorem predict_batch_pointwise (self : LegalTextClassifier) (texts : list string)
    (rows : list (list R)) :
  model_loaded self = true ->
  forward texts = Ok rows ->
  List.length rows = List.length texts ->
  (forall row, In row rows -> row <> []) ->
  (forall i t row, nth_error texts i = Some t -> nth_error rows i = Some row ->
                   forward [t] = Ok [row]) ->
  exists results, predict_batch self texts = Ok results
    /\ List.length results = List.length texts
    /\ forall i t, nth_error texts i = Some t ->
         exists r, nth_error results i = Some r /\ predict self t = Ok r.
Proof.
  intros Hl Hf Hlen Hne Hrow.
  unfold predict_batch. rewrite Hl, Hf. simpl.
  destruct (batch_loop_spec (map softmax rows) (seq 0 (List.length texts)) [])
    as [rs [Hloop [Hrs Hnth]]].
  { intros i Hi. apply in_seq in Hi.
    destruct (nth_error rows i) as [row|] eqn:Hr.
    - exists (softmax row). split.
      + apply map_nth_error. exact Hr.
      + apply softmax_nonempty, Hne. eapply nth_error_In; eauto.
    - apply nth_error_None in Hr. lia. }
  exists rs. simpl in Hloop. rewrite length_seq in Hrs. repeat split; auto.
  intros i t Ht.
  assert (Hi : i < List.length texts).
  { apply nth_error_Some. congruence. }
  destruct (Hnth i i) as [row' [r [Hrow' [Hres Hri]]]].
  { rewrite nth_error_seq. apply Nat.ltb_lt in Hi. rewrite Hi. reflexivity. }
  exists r. split; [exact Hri|].
  rewrite nth_error_map in Hrow'.
  destruct (nth_error rows i) as [row|] eqn:Hr; [|discriminate].
  simpl in Hrow'. injection Hrow' as <-.
  rewrite (predict_unfold self t row Hl (Hrow i t row Ht Hr)). exact Hres.
Qed.

End WithTransformer.

(** A row whose second entry is the larger one, under the two-label model *)
Example row_result_second (a b : R) :
  (a < b)%R ->
  @row_result Samples.two_label_model [a; b]
  = Ok {| predicted_class := 1; confidence := b; all_scores := [a; b];
          predicted_label := Some "LABEL_B"%string;
          all_labels := Some [("LABEL_A"%string, a); ("LABEL_B"%string, b)] |}.
Proof.
  intros Hab. unfold row_result, argmax. cbn [argmax_from bind].
  destruct (Rlt_dec a b) as [_|Hn]; [reflexivity|contradiction].
Qed.

(** A tie goes to the first index. *)
Example argmax_tie (a : R) : argmax [a; a] = Ok 0.
Proof.
  unfold argmax. cbn [argmax_from].
  destruct (Rlt_dec a a) as [H|_]; [lra|reflexivity].
Qed.

(** [predict] on a six-character text under the two-label model: the
    second logit is the larger one, so class 1 wins. *)
Example predict_sample :
  exists p q, (p < q)%R
    /\ @predict Samples.two_label_model Samples.loaded "Dieu 1"
       = Ok {| predicted_class := 1; confidence := q; all_scores := [p; q];
               predicted_label := Some "LABEL_B"%string;
               all_labels := Some [("LABEL_A"%string, p); ("LABEL_B"%string, q)] |}.
Proof.
  set (z := Rsum (map exp [0%R; INR 6])).
  assert (Hz : (0 < z)%R) by (apply Rsum_exp_pos; discriminate).
  assert (Hlt : (exp 0 / z < exp (INR 6) / z)%R).
  { apply Rmult_lt_compat_r; [apply Rinv_0_lt_compat; exact Hz|].
    apply exp_increasing. simpl. lra. }
  exists (exp 0 / z)%R, (exp (INR 6) / z)%R. split; [exact Hlt|].
  rewrite (@predict_unfold Samples.two_label_model Samples.loaded "Dieu 1"
             [0%R; INR 6] eq_refl eq_refl).
  apply row_result_second. exact Hlt.
Qed.

Lemma predict_distribution_witness :
  exists r, @predict Samples.two_label_model Samples.loaded "Dieu 1" = Ok r
    /\ Rsum (all_scores r) = 1%R
    /\ is_first_max (all_scores r) (predicted_class r)
    /\ nth_error (all_scores r) (predicted_class r) = Some (confidence r).
Proof.
  apply (@predict_distribution Samples.two_label_model Samples.loaded "Dieu 1"
           [0%R; INR 6]).
  - reflexivity.
  - reflexivity.
  - discriminate.
Defined.

Lemma predict_batch_pointwise_witness :
  exists results,
    @predict_batch Samples.two_label_model Samples.loaded ["Dieu 1"; "Khoan 2"]%string
      = Ok results
    /\ List.length results = 2
    /\ forall i t, nth_error ["Dieu 1"; "Khoan 2"]%string i = Some t ->
         exists r, nth_error results i = Some r
                   /\ @predict Samples.two_label_model Samples.loaded t = Ok r.
Proof.
  apply (@predict_batch_pointwise Samples.two_label_model Samples.loaded
           ["Dieu 1"; "Khoan 2"]%string [[0%R; INR 6]; [0%R; INR 7]]).
  - reflexivity.
  - reflexivity.
  - reflexivity.
  - intros row [<-|[<-|[]]]; discriminate.
  - intros i t row Ht Hr.
    destruct i as [|[|i]]; simpl in Ht, Hr.
    + injection Ht as <-. injection Hr as <-. reflexivity.
    + injection Ht as <-. injection Hr as <-. reflexivity.
    + destruct i; discriminate.
Defined.

End ModelFacts.

(** ** The OCR facade *)
Module OcrFacts.
Import Py OcrModel OcrSpec.

(** *** Arithmetic of confidences *)

Lemma int_of_nonpos (q : Q) : (q <= 0)%Q -> (int_of q <= 0)%Z.
Proof.
  intros H. unfold int_of. apply Z.quot_le_upper_bound; [lia|].
  unfold Qle in H. simpl in H. lia.
Qed.

Lemma int_of_pos (q : Q) : (0 < int_of q)%Z -> (0 < q)%Q.
Proof.
  intros H. destruct (Qlt_le_dec 0 q) as [Hq|Hq]; [exact Hq|].
  apply int_of_nonpos in Hq. lia.
Qed.

Lemma kept_pos (data : TessData) (i : nat) (c : Q) :
  nth_error (col_conf data) i = Some c -> kept data i = true -> (0 < c)%Q.
Proof.
  intros Hc Hk. unfold kept in Hk. rewrite Hc in Hk.
  apply int_of_pos. apply Z.ltb_lt. exact Hk.
Qed.

Lemma nonpos_not_kept (data : TessData) (i : nat) (c : Q) :
  nth_error (col_conf data) i = Some c -> (c <= 0)%Q -> kept data i = false.
Proof.
  intros Hc Hle. unfold kept. rewrite Hc. apply Z.ltb_ge.
  apply int_of_nonpos. exact Hle.
Qed.

Lemma fold_left_Qplus (l : list Q) :
  forall a, (fold_left Qplus l a == a + fold_right Qplus 0 l)%Q.
Proof.
  induction l as [|x t IH]; intros a; simpl.
  - ring.
  - rewrite IH. ring.
Qed.

Lemma inject_Z_S (n : nat) :
  (inject_Z (Z.of_nat (S n)) == inject_Z (Z.of_nat n) + 1)%Q.
Proof.
  rewrite Nat2Z.inj_succ. unfold Z.succ. rewrite inject_Z_plus. reflexivity.
Qed.

Lemma sum_bounds (l : list Q) :
  Forall unit_scale l ->
  (0 <= fold_right Qplus 0 l)%Q
  /\ (fold_right Qplus 0 l <= inject_Z (Z.of_nat (List.length l)))%Q.
Proof.
  induction 1 as [|x t [Hx0 Hx1] _ [IH0 IH1]].
  - simpl. split; apply Qle_refl.
  - cbn [fold_right List.length]. rewrite inject_Z_S.
    revert IH0 IH1. generalize (inject_Z (Z.of_nat (List.length t))).
    generalize (fold_right Qplus 0%Q t). intros s n IH0 IH1. split; Lqa.lra.
Qed.

Lemma average_is_mean (l : list Q) : l <> [] -> (average l == mean l)%Q.
Proof.
  destruct l as [|x t]; [congruence|intros _].
  unfold average, mean, py_sum. rewrite fold_left_Qplus.
  setoid_replace (0 + fold_right Qplus 0 (x :: t))%Q
    with (fold_right Qplus 0 (x :: t))%Q by ring.
  reflexivity.
Qed.

Lemma average_unit_scale (l : list Q) : Forall unit_scale l -> unit_scale (average l).
Proof.
  intros Hl. destruct l as [|x t].
  - split; simpl; Lqa.lra.
  - assert (Hne : x :: t <> []) by discriminate.
    pose proof (sum_bounds _ Hl) as [H0 H1].
    assert (Hn : (0 < inject_Z (Z.of_nat (List.length (x :: t))))%Q).
    { unfold Qlt. cbn [Qnum Qden inject_Z List.length]. lia. }
    unfold unit_scale. rewrite (average_is_mean _ Hne). unfold mean.
    revert H0 H1 Hn. generalize (inject_Z (Z.of_nat (List.length (x :: t)))).
    generalize (fold_right Qplus 0%Q (x :: t)). intros s n H0 H1 Hn. split.
    + apply Qle_shift_div_l; [exact Hn|]. Lqa.lra.
    + apply Qle_shift_div_r; [exact Hn|]. Lqa.lra.
Qed.

(** *** The two loops *)

Lemma easyocr_loop_spec (results : list (list (list Z) * string * Q)) :
  forall texts confidences full_text,
    easyocr_loop results texts confidences full_text
    = (texts ++ map easyocr_line results,
       confidences ++ map (fun d => snd d) results,
       full_text ++ map (fun d => snd (fst d)) results).
Proof.
  induction results as [|[[box t] c] rest IH]; intros texts confidences full_text.
  - simpl. rewrite !app_nil_r. reflexivity.
  - simpl. rewrite IH, <- !app_assoc. reflexivity.
Qed.

Lemma tesseract_loop_spec (data : TessData) (n : nat) (idxs : list nat) :
  columns_of_length data n ->
  Forall (fun i => i < n) idxs ->
  forall lines confidences,
    exists added,
      tesseract_loop data idxs lines confidences
      = Ok (lines ++ added, confidences ++ map line_confidence added)
      /\ Forall2 (line_of_box data) (filter (kept data) idxs) added.
Proof.
  intros (Ht & Hc & Hl & Htp & Hw & Hh) Hidx.
  induction Hidx as [|i rest Hi _ IH]; intros lines confidences.
  - exists []. simpl. rewrite !app_nil_r. split; [reflexivity|constructor].
  - assert (Hget : forall (A : Type) (col : list A),
               List.length col = n -> exists v, nth_error col i = Some v).
    { intros A col Hlen. destruct (nth_error col i) eqn:E; [eauto|].
      apply nth_error_None in E. lia. }
    destruct (Hget _ _ Hc) as [c Ec]. destruct (Hget _ _ Ht) as [t Et].
    destruct (Hget _ _ Hl) as [l El]. destruct (Hget _ _ Htp) as [tp Etp].
    destruct (Hget _ _ Hw) as [w Ew]. destruct (Hget _ _ Hh) as [h Eh].
    cbn [tesseract_loop filter]. unfold kept at 1, Model.index.
    rewrite Ec. cbn [bind]. destruct (0 <? int_of c)%Z eqn:Epos.
    + rewrite Et, El, Etp, Ew, Eh. cbn [bind].
      match goal with
      | |- context [tesseract_loop data rest (lines ++ [?ln]) _] =>
          destruct (IH (lines ++ [ln]) (confidences ++ [(c / 100)%Q]))
            as [added [Hloop Hall]];
          exists (ln :: added)
      end.
      rewrite Hloop, <- !app_assoc. split; [reflexivity|].
      constructor; [|exact Hall].
      exists c, l, tp, w, h. cbn. repeat split; assumption.
    + destruct (IH lines confidences) as [added [Hloop Hall]].
      exists added. split; assumption.
Qed.

Lemma Forall2_Forall_r {A B} (R : A -> B -> Prop) (P : B -> Prop)
    (l1 : list A) (l2 : list B) :
  Forall2 R l1 l2 ->
  (forall a b, In a l1 -> R a b -> P b) ->
  Forall P l2.
Proof.
  induction 1 as [|a b l1 l2 Hab _ IH]; intros HP; constructor.
  - apply (HP a b); [left; reflexivity|exact Hab].
  - apply IH. intros a' b' Hin. apply HP. right. exact Hin.
Qed.



Section WithBackends.
Context {ocr : OcrBackends}.

(** *** What the two backends return *)

Lemma easyocr_result (self : OCRProcessor) (image : Image) (langs : list string)
    (results : list (list (list Z) * string * Q)) :
  reader self = Some langs ->
  readtext langs image = Ok results ->
  _process_with_easyocr self image
  = Ok {| text := String.concat " " (map (fun d => snd (fst d)) results);
          lines := map easyocr_line results;
          average_confidence := average (map line_confidence (map easyocr_line results));
          result_engine := "easyocr" |}.
Proof.
  intros Hr Hread. unfold _process_with_easyocr. rewrite Hr, Hread. cbn [bind].
  rewrite easyocr_loop_spec. cbn [app]. do 3 f_equal.
  rewrite map_map. apply map_ext. intros [[box t] c]. reflexivity.
Qed.

Lemma tesseract_result (self : OCRProcessor) (image : Image) (txt : string)
    (data : TessData) :
  image_to_string image (lang_string self) = Ok txt ->
  image_to_data image (lang_string self) = Ok data ->
  columns_of_length data (List.length (col_text data)) ->
  exists lns,
    _process_with_tesseract self image
    = Ok {| text := strip txt;
            lines := lns;
            average_confidence := average (map line_confidence lns);
            result_engine := "tesseract" |}
    /\ Forall2 (line_of_box data)
               (filter (kept data) (seq 0 (List.length (col_text data)))) lns.
Proof.
  intros Hs Hd Hwf. unfold _process_with_tesseract. fold (lang_string self).
  rewrite Hs, Hd. cbn [bind].
  destruct (tesseract_loop_spec data _ (seq 0 (List.length (col_text data))) Hwf)
    with (lines := @nil Line) (confidences := @nil Q) as [added [Hloop Hall]].
  { apply Forall_forall. intros i Hi. apply in_seq in Hi. lia. }
  exists added. rewrite Hloop. cbn [bind app]. split; [reflexivity|exact Hall].
Qed.

Lemma kept_lines_positive (data : TessData) (idxs : list nat) (lns : list Line) :
  Forall2 (line_of_box data) (filter (kept data) idxs) lns ->
  Forall (fun ln => (0 < line_confidence ln)%Q) lns.
Proof.
  intros H. apply (Forall2_Forall_r _ _ _ _ H).
  intros i ln Hin (c & l & tp & w & h & Hc & _ & _ & _ & _ & _ & Hconf & _).
  apply filter_In in Hin. destruct Hin as [_ Hk].
  pose proof (kept_pos data i c Hc Hk) as Hpos.
  rewrite Hconf. apply Qlt_shift_div_l; Lqa.lra.
Qed.

(** C3. Both backends return confidences on the unit scale, the average
    included, as long as each engine reports on its native scale: EasyOCR
    in [0,1], whose values are passed through, and Tesseract at most 100,
    whose values are divided by 100 (each line is [line_of_box] of a kept
    box). *)
Theorem confidences_on_unit_scale (self : OCRProcessor) (image : Image) :
  (forall langs results,
      reader self = Some langs ->
      readtext langs image = Ok results ->
      Forall (fun d => unit_scale (snd d)) results ->
      exists r, _process_with_easyocr self image = Ok r
        /\ Forall (fun ln => unit_scale (line_confidence ln)) (lines r)
        /\ unit_scale (average_confidence r))
  /\
  (forall txt data,
      image_to_string image (lang_string self) = Ok txt ->
      image_to_data image (lang_string self) = Ok data ->
      columns_of_length data (List.length (col_text data)) ->
      Forall (fun c => (c <= 100)%Q) (col_conf data) ->
      exists r, _process_with_tesseract self image = Ok r
        /\ Forall2 (line_of_box data)
                   (filter (kept data) (seq 0 (List.length (col_text data)))) (lines r)
        /\ Forall (fun ln => unit_scale (line_confidence ln)) (lines r)
        /\ unit_scale (average_confidence r)).
Proof.
  split.
  - intros langs results Hr Hread Hunit.
    eexists. split; [apply (easyocr_result self image langs results Hr Hread)|].
    cbn [lines average_confidence].
    assert (Hl : Forall (fun ln => unit_scale (line_confidence ln))
                        (map easyocr_line results)).
    { apply Forall_map. eapply Forall_impl; [|exact Hunit].
      intros [[box t] c] Hc. exact Hc. }
    split; [exact Hl|]. apply average_unit_scale. apply Forall_map. exact Hl.
  - intros txt data Hs Hd Hwf Hmax.
    destruct (tesseract_result self image txt data Hs Hd Hwf) as [lns [Hres Hall]].
    eexists. split; [exact Hres|]. cbn [lines average_confidence].
    assert (Hl : Forall (fun ln => unit_scale (line_confidence ln)) lns).
    { apply (Forall2_Forall_r _ _ _ _ Hall).
      intros i ln Hin (c & l & tp & w & h & Hc & _ & _ & _ & _ & _ & Hconf & _).
      apply filter_In in Hin. destruct Hin as [_ Hk].
      pose proof (kept_pos data i c Hc Hk) as Hpos.
      assert (Hc100 : (c <= 100)%Q).
      { rewrite Forall_forall in Hmax. apply Hmax. eapply nth_error_In; eauto. }
      unfold unit_scale. rewrite Hconf. split.
      - apply Qle_shift_div_l; Lqa.lra.
      - apply Qle_shift_div_r; Lqa.lra. }
    split; [exact Hall|]. split; [exact Hl|].
    apply average_unit_scale. apply Forall_map. exact Hl.
Qed.


(** C10. With the Tesseract backend the lines of the result are exactly
    the boxes that pass the test [int(conf) > 0], in order; a box whose
    native confidence is at most 0 is not among them; the average is taken
    over the lines of the result only; and every line has a confidence
    above 0. *)
Theorem tesseract_drops_nonpositive (self : OCRProcessor) (image : Image)
    (txt : string) (data : TessData) :
  image_to_string image (lang_string self) = Ok txt ->
  image_to_data image (lang_string self) = Ok data ->
  columns_of_length data (List.length (col_text data)) ->
  exists r, _process_with_tesseract self image = Ok r
    /\ Forall2 (line_of_box data)
               (filter (kept data) (seq 0 (List.length (col_text data)))) (lines r)
    /\ (forall i c, nth_error (col_conf data) i = Some c -> (c <= 0)%Q ->
          ~ In i (filter (kept data) (seq 0 (List.length (col_text data)))))
    /\ average_confidence r = average (map line_confidence (lines r))
    /\ Forall (fun ln => (0 < line_confidence ln)%Q) (lines r).
Proof.
  intros Hs Hd Hwf.
  destruct (tesseract_result self image txt data Hs Hd Hwf) as [lns [Hres Hall]].
  eexists. split; [exact Hres|]. cbn [lines average_confidence].
  split; [exact Hall|]. split; [|split].
  - intros i c Hc Hle Hin. apply filter_In in Hin. destruct Hin as [_ Hk].
    rewrite (nonpos_not_kept data i c Hc Hle) in Hk. discriminate.
  - reflexivity.
  - apply (kept_lines_positive data _ lns Hall).
Qed.

(** *** The cached processor *)

Lemma initialize_fields (self : OCRProcessor) :
  engine (snd (initialize self)) = engine self
  /\ languages (snd (initialize self)) = languages self.
Proof.
  unfold initialize.
  destruct (_initialized self); [split; reflexivity|].
  destruct (String.eqb (engine self) "easyocr").
  - destruct (negb EASYOCR_AVAILABLE); [split; reflexivity|].
    destruct (easyocr_Reader (languages self)); split; reflexivity.
  - destruct (String.eqb (engine self) "tesseract"); [|split; reflexivity].
    destruct (negb PYTESSERACT_AVAILABLE); [split; reflexivity|].
    destruct get_tesseract_version; split; reflexivity.
Qed.

Lemma languages_or_default_idem (l : option (list string)) :
  languages_or_default (Some (languages_or_default l)) = languages_or_default l.
Proof. destruct l as [[|x t]|]; reflexivity. Qed.

(** What [new_processor] leaves behind: a fresh reference, made the
    global, to an object whose engine is the lower-cased name. *)
Lemma new_processor_spec (e : string) (l : option (list string)) (g : Globals) :
  exists self,
    snd (new_processor e (languages_or_default l) g)
    = {| objects := objects g ++ [self];
         _ocr_processor := Some (List.length (objects g)) |}
    /\ engine self = lower e
    /\ languages self = languages_or_default l
    /\ (forall ref, fst (new_processor e (languages_or_default l) g) = Ok ref ->
                    ref = List.length (objects g)).
Proof.
  unfold new_processor.
  pose proof (initialize_fields
                (OCRProcessor__init__ e (Some (languages_or_default l)))) as [He Hl].
  destruct (initialize (OCRProcessor__init__ e (Some (languages_or_default l))))
    as [r self'] eqn:Hinit.
  cbn [snd] in He, Hl. exists self'.
  cbn [engine OCRProcessor__init__] in He. cbn [languages OCRProcessor__init__] in Hl.
  rewrite languages_or_default_idem in Hl.
  destruct r as [u|err]; cbn [fst snd]; repeat split; auto; intros ref Href;
    congruence.
Qed.

Lemma deref_last (objs : list OCRProcessor) (self : OCRProcessor) (c : option nat) :
  deref {| objects := objs ++ [self]; _ocr_processor := c |} (List.length objs)
  = Some self.
Proof.
  unfold deref. cbn [objects]. rewrite nth_error_app2 by lia.
  rewrite Nat.sub_diag. reflexivity.
Qed.

Lemma store_at_length (l : list OCRProcessor) (ref : nat) (p : OCRProcessor) :
  List.length (store_at l ref p) = List.length l.
Proof.
  revert ref; induction l as [|x t IH]; intros [|n]; simpl; auto.
Qed.

(** References stay valid: the branches of the model that report a
    dangling reference are never taken from the initial state. *)
Lemma get_ocr_processor_wf (e : string) (l : option (list string)) (g : Globals) :
  globals_wf g ->
  globals_wf (snd (get_ocr_processor e l g))
  /\ forall ref, fst (get_ocr_processor e l g) = Ok ref ->
                 _ocr_processor (snd (get_ocr_processor e l g)) = Some ref.
Proof.
  intros Hwf.
  assert (Hnew : globals_wf (snd (new_processor e (languages_or_default l) g))
                 /\ forall ref,
                      fst (new_processor e (languages_or_default l) g) = Ok ref ->
                      _ocr_processor (snd (new_processor e (languages_or_default l) g))
                      = Some ref).
  { destruct (new_processor_spec e l g) as [self [Hg [_ [_ Hr]]]].
    rewrite Hg. split.
    - intros ref Href. cbn in Href. injection Href as <-.
      cbn [objects]. rewrite length_app. simpl. lia.
    - intros ref Href. rewrite (Hr ref Href). reflexivity. }
  unfold get_ocr_processor.
  destruct (_ocr_processor g) as [ref0|] eqn:Hglob; [|exact Hnew].
  destruct (deref g ref0) as [p|] eqn:Hp.
  - destruct (negb (String.eqb (engine p) e) || _); [exact Hnew|].
    cbn [fst snd]. split; [exact Hwf|]. intros ref Href. congruence.
  - cbn [fst snd]. split; [exact Hwf|]. discriminate.
Qed.

Lemma call_process_image_wf (ref : nat) (image : Image) (g : Globals) :
  globals_wf g -> globals_wf (snd (call_process_image ref image g)).
Proof.
  intros Hwf. unfold call_process_image.
  destruct (deref g ref) as [self|]; [|exact Hwf].
  destruct (process_image self image) as [r self'].
  intros ref' Href. cbn in *. rewrite store_at_length. apply Hwf. exact Href.
Qed.

(** For an engine name already in lower case, a second call with the same
    arguments returns the reference of the first and leaves the state alone. *)
Lemma get_ocr_processor_cached (e : string) (l : option (list string))
    (g g1 : Globals) (ref : nat) :
  lower e = e ->
  get_ocr_processor e l g = (Ok ref, g1) ->
  get_ocr_processor e l g1 = (Ok ref, g1).
Proof.
  intros Hlow Hfirst.
  assert (Hnew : forall g0,
             new_processor e (languages_or_default l) g0 = (Ok ref, g1) ->
             get_ocr_processor e l g1 = (Ok ref, g1)).
  { intros g0 Hn.
    destruct (new_processor_spec e l g0) as [self [Hg [He [Hl Hr]]]].
    rewrite Hn in Hg, Hr. cbn [fst snd] in Hg, Hr.
    specialize (Hr ref eq_refl). subst ref g1.
    unfold get_ocr_processor. cbn [_ocr_processor].
    rewrite deref_last, He, Hl, Hlow, String.eqb_refl, PyFacts.list_eqb_refl.
    reflexivity. }
  unfold get_ocr_processor in Hfirst.
  destruct (_ocr_processor g) as [ref0|] eqn:Hglob; [|eauto].
  destruct (deref g ref0) as [p|] eqn:Hp; [|discriminate].
  destruct (negb (String.eqb (engine p) e)
            || negb (list_eqb (languages p) (languages_or_default l))) eqn:Htest;
    [eauto|].
  injection Hfirst as <- <-.
  unfold get_ocr_processor. rewrite Hglob, Hp, Htest. reflexivity.
Qed.

(** For an engine name with an upper-case letter, the call right after
    one that built a processor builds another one: the global holds the
    lower-cased name, which differs from the argument. *)
Lemma get_ocr_processor_rebuilt (e : string) (l : option (list string))
    (g : Globals) :
  lower e <> e ->
  let g1 := snd (new_processor e (languages_or_default l) g) in
  get_ocr_processor e l g1 = new_processor e (languages_or_default l) g1
  /\ List.length (objects g1) = S (List.length (objects g)).
Proof.
  intros Hlow g1.
  destruct (new_processor_spec e l g) as [self [Hg [He [Hl _]]]].
  fold g1 in Hg. rewrite Hg. split.
  - unfold get_ocr_processor. cbn [_ocr_processor].
    rewrite deref_last, He.
    destruct (String.eqb (lower e) e) eqn:E.
    + apply String.eqb_eq in E. contradiction.
    + reflexivity.
  - cbn [objects]. rewrite length_app. simpl. lia.
Qed.


End WithBackends.

(** C8. The cache of [get_ocr_processor] misses when the engine name has an
    upper-case letter.  With EasyOCR installed, two calls in succession
    with the engine "EasyOCR" and the languages vi, en return two
    different processors (references 0 and 1), both built and kept. *)
Theorem get_ocr_processor_mixed_case_rebuilds :
  let first :=
    @get_ocr_processor Samples.engines "EasyOCR" (Some ["vi"; "en"]%string)
      initial_globals in
  let second :=
    @get_ocr_processor Samples.engines "EasyOCR" (Some ["vi"; "en"]%string)
      (snd first) in
  fst first = Ok 0
  /\ fst second = Ok 1
  /\ objects (snd second) = [Samples.easyocr_processor; Samples.easyocr_processor].
Proof. vm_compute. repeat split. Qed.

Lemma scan_data_columns :
  columns_of_length Samples.scan_data (List.length (col_text Samples.scan_data)).
Proof. repeat split. Qed.

Lemma confidences_on_unit_scale_witness :
  (exists r,
      @_process_with_easyocr Samples.engines Samples.easyocr_processor "scan.png"%string
      = Ok r
      /\ Forall (fun ln => unit_scale (line_confidence ln)) (lines r)
      /\ unit_scale (average_confidence r))
  /\
  (exists r,
      @_process_with_tesseract Samples.engines Samples.tesseract_processor
        "scan.png"%string = Ok r
      /\ Forall2 (line_of_box Samples.scan_data) [1; 2] (lines r)
      /\ Forall (fun ln => unit_scale (line_confidence ln)) (lines r)
      /\ unit_scale (average_confidence r)).
Proof.
  destruct (@confidences_on_unit_scale Samples.engines Samples.easyocr_processor
              "scan.png"%string) as [Heasy _].
  destruct (@confidences_on_unit_scale Samples.engines Samples.tesseract_processor
              "scan.png"%string) as [_ Htess].
  split.
  - eapply Heasy; [reflexivity|reflexivity|].
    repeat constructor; cbn; unfold Qle; cbn; lia.
  - apply (Htess " Dieu 1.  "%string Samples.scan_data eq_refl eq_refl
             scan_data_columns).
    repeat constructor; cbn; unfold Qle; cbn; lia.
Defined.


Lemma tesseract_drops_nonpositive_witness :
  exists r,
    @_process_with_tesseract Samples.engines Samples.tesseract_processor
      "scan.png"%string = Ok r
    /\ Forall2 (line_of_box Samples.scan_data) [1; 2] (lines r)
    /\ (forall i c, nth_error (col_conf Samples.scan_data) i = Some c -> (c <= 0)%Q ->
          ~ In i [1; 2])
    /\ average_confidence r = average (map line_confidence (lines r))
    /\ Forall (fun ln => (0 < line_confidence ln)%Q) (lines r).
Proof.
  exact (@tesseract_drops_nonpositive Samples.engines Samples.tesseract_processor
           "scan.png"%string " Dieu 1.  "%string Samples.scan_data eq_refl eq_refl
           scan_data_columns).
Defined.

(** The run behind the witnesses: the page box (-1) and the doubtful box
    (0) are dropped, 96 and 91.3 become 0.96 and 0.913. *)
Example tesseract_scan :
  @_process_with_tesseract Samples.engines Samples.tesseract_processor "scan.png"%string
  = Ok {| text := "Dieu 1.";
          lines := [ {| line_text := "Dieu"; line_confidence := (96 / 100)%Q;
                        line_bbox := Rect 4 2 34 14 |};
                     {| line_text := "1."; line_confidence := ((913 # 10) / 100)%Q;
                        line_bbox := Rect 40 2 52 14 |} ];
          average_confidence :=
            ((0 + 96 / 100 + (913 # 10) / 100) / inject_Z 2)%Q;
          result_engine := "tesseract" |}.
Proof. reflexivity. Qed.

End OcrFacts.

(** ** The HTTP layer *)
Module ApiFacts.
Import Py Api ApiSpec.

Lemma only_logs_ret {A} (P : event -> bool) (a : A) : only_logs P (ret a).
Proof. intros w. split; [reflexivity|]. exists []. rewrite app_nil_r. auto. Qed.

Lemma only_logs_raise {A} (P : event -> bool) (e : exn) : only_logs P (@raise A e).
Proof. intros w. split; [reflexivity|]. exists []. rewrite app_nil_r. auto. Qed.

Lemma only_logs_lift {A} (P : event -> bool) (r : result A) : only_logs P (lift r).
Proof. intros w. split; [reflexivity|]. exists []. rewrite app_nil_r. auto. Qed.

Lemma only_logs_log (P : event -> bool) (ev : event) :
  P ev = true -> only_logs P (log ev).
Proof.
  intros HP w. split; [reflexivity|]. exists [ev]. simpl. rewrite HP. auto.
Qed.

Lemma only_logs_bind {A B} (P : event -> bool) (c : M A) (k : A -> M B) :
  only_logs P c -> (forall a, only_logs P (k a)) -> only_logs P (bindM c k).
Proof.
  intros Hc Hk w. unfold bindM.
  destruct (Hc w) as [Hm [evs [Ht HP]]].
  destruct (c w) as [[a|e] w1]; cbn [snd] in *.
  - destruct (Hk a w1) as [Hm' [evs' [Ht' HP']]]. split; [congruence|].
    exists (evs ++ evs'). rewrite Ht', Ht, app_assoc, forallb_app, HP, HP'. auto.
  - split; [exact Hm|]. exists evs. auto.
Qed.

Lemma only_logs_try {A} (P : event -> bool) (c : M A) (h : exn -> M A) :
  only_logs P c -> (forall e, only_logs P (h e)) -> only_logs P (try_except c h).
Proof.
  intros Hc Hh w. unfold try_except.
  destruct (Hc w) as [Hm [evs [Ht HP]]].
  destruct (c w) as [[a|e] w1]; cbn [snd] in *.
  - split; [exact Hm|]. exists evs. auto.
  - destruct (Hh e w1) as [Hm' [evs' [Ht' HP']]]. split; [congruence|].
    exists (evs ++ evs'). rewrite Ht', Ht, app_assoc, forallb_app, HP, HP'. auto.
Qed.

Section WithService.
Context {settings : Settings} {tf : Model.Transformer}
        {ocr : OcrModel.OcrBackends} {pil : ImageDecoder}.

Lemma only_logs_get_ocr_processor (P : event -> bool) (e : string)
    (l : option (list string)) :
  P CallGetOcrProcessor = true -> only_logs P (get_ocr_processor e l).
Proof.
  intros HP. unfold get_ocr_processor. apply only_logs_bind.
  - apply only_logs_log. exact HP.
  - intros _ w. destruct (OcrModel.get_ocr_processor e l (ocr_globals w)).
    split; [reflexivity|]. exists []. rewrite app_nil_r. auto.
Qed.

Lemma only_logs_process_image (P : event -> bool) (ref : nat)
    (image : OcrModel.Image) :
  P CallProcessImage = true -> only_logs P (process_image ref image).
Proof.
  intros HP. unfold process_image. apply only_logs_bind.
  - apply only_logs_log. exact HP.
  - intros _ w. destruct (OcrModel.call_process_image ref image (ocr_globals w)).
    split; [reflexivity|]. exists []. rewrite app_nil_r. auto.
Qed.

Lemma only_logs_validate (P : event -> bool) (file : UploadFile) :
  P CallImageOpen = true -> only_logs P (validate_and_load_image file).
Proof.
  intros HP. unfold validate_and_load_image.
  destruct (not_an_image file); [apply only_logs_raise|].
  destruct (max_upload_size <? _)%Z; [apply only_logs_raise|].
  apply only_logs_try.
  - unfold open_image. apply only_logs_bind.
    + apply only_logs_log. exact HP.
    + intros _. apply only_logs_lift.
  - intros e. destruct e; apply only_logs_raise.
Qed.

(** The OCR stage never calls into the classifier. *)
Lemma run_ocr_only_logs (file : UploadFile) :
  only_logs (fun ev => negb (classifier_event ev)) (run_ocr file).
Proof.
  unfold run_ocr. apply only_logs_bind.
  - apply only_logs_validate. reflexivity.
  - intros image. apply only_logs_bind.
    + apply only_logs_get_ocr_processor. reflexivity.
    + intros ref. apply only_logs_process_image. reflexivity.
Qed.

(** *** The combined endpoint *)

Lemma upload_and_classify_blank (file : UploadFile) (w w1 : World)
    (r : OcrModel.OCRResult) :
  run_ocr file w = (Ok r, w1) ->
  truthy (strip (OcrModel.text r)) = false ->
  ocr_upload_and_classify file w
  = (Ok {| ocr_result := r; classification := None |}, w1).
Proof.
  intros Hrun Hblank. unfold ocr_upload_and_classify, try_except, bindM.
  rewrite Hrun, Hblank. reflexivity.
Qed.

(** C4. When the OCR stage of the combined endpoint succeeds and the
    classification raises, whatever the exception, the request succeeds:
    the response holds the OCR result and no classification. *)
Theorem classification_failure_is_swallowed (file : UploadFile) (w w1 w2 : World)
    (r : OcrModel.OCRResult) (e : exn) :
  run_ocr file w = (Ok r, w1) ->
  classify_text (OcrModel.text r) w1 = (Raise e, w2) ->
  ocr_upload_and_classify file w
  = (Ok {| ocr_result := r; classification := None |},
     if truthy (strip (OcrModel.text r)) then w2 else w1).
Proof.
  intros Hrun Hcls. unfold ocr_upload_and_classify, try_except, bindM.
  rewrite Hrun. destruct (truthy (strip (OcrModel.text r))).
  - rewrite Hcls. reflexivity.
  - reflexivity.
Qed.

(** C5. When the text extracted by the OCR stage is empty, the combined
    endpoint answers with the OCR result and no classification, in the
    state the OCR stage left: between the request and the response the
    classifier global is untouched and the trace gains no call of
    [get_model] or [predict]. *)
Theorem empty_text_skips_classification (file : UploadFile) (w w1 : World)
    (r : OcrModel.OCRResult) :
  run_ocr file w = (Ok r, w1) ->
  OcrModel.text r = EmptyString ->
  ocr_upload_and_classify file w
  = (Ok {| ocr_result := r; classification := None |}, w1)
  /\ model_instance w1 = model_instance w
  /\ exists evs, trace w1 = trace w ++ evs
                 /\ forallb (fun ev => negb (classifier_event ev)) evs = true.
Proof.
  intros Hrun Hempty. split.
  - apply upload_and_classify_blank; [exact Hrun|]. rewrite Hempty. reflexivity.
  - pose proof (run_ocr_only_logs file w) as H. rewrite Hrun in H. exact H.
Qed.

(** *** Validation of uploads *)

Lemma validation_error_propagates (file : UploadFile) (w w' : World)
    (code : Z) (detail : string) :
  validate_and_load_image file w = (Raise (HTTPException code detail), w') ->
  ocr_upload file w = (Raise (HTTPException code detail), w')
  /\ ocr_upload_and_classify file w = (Raise (HTTPException code detail), w').
Proof.
  intros H. unfold ocr_upload, ocr_upload_and_classify, run_ocr, try_except, bindM.
  rewrite H. split; reflexivity.
Qed.

Lemma rejected_both (file : UploadFile) (w : World) (code : Z) (detail : string)
    (evs : list event) :
  validate_and_load_image file w
  = (Raise (HTTPException code detail),
     {| model_instance := model_instance w; ocr_globals := ocr_globals w;
        trace := trace w ++ evs |}) ->
  rejected (ocr_upload file) w code evs
  /\ rejected (ocr_upload_and_classify file) w code evs.
Proof.
  intros H. apply validation_error_propagates in H. destruct H as [H1 H2].
  split; exists detail; assumption.
Qed.

Lemma world_eta (w : World) :
  w = {| model_instance := model_instance w; ocr_globals := ocr_globals w;
         trace := trace w ++ [] |}.
Proof. destruct w. cbn. rewrite app_nil_r. reflexivity. Qed.

Lemma validate_not_an_image (file : UploadFile) (w : World) :
  not_an_image file = true ->
  rejected (ocr_upload file) w 400 []
  /\ rejected (ocr_upload_and_classify file) w 400 [].
Proof.
  intros H. eapply rejected_both. unfold validate_and_load_image. rewrite H.
  unfold raise. rewrite <- world_eta. reflexivity.
Qed.

Lemma validate_too_large (file : UploadFile) (w : World) :
  not_an_image file = false ->
  (max_upload_size < Z.of_nat (String.length (file_data file)))%Z ->
  rejected (ocr_upload file) w 413 []
  /\ rejected (ocr_upload_and_classify file) w 413 [].
Proof.
  intros H Hsize. apply Z.ltb_lt in Hsize. eapply rejected_both.
  unfold validate_and_load_image. rewrite H, Hsize.
  unfold raise. rewrite <- world_eta. reflexivity.
Qed.

Lemma validate_undecodable (file : UploadFile) (w : World) :
  not_an_image file = false ->
  (max_upload_size <? Z.of_nat (String.length (file_data file)))%Z = false ->
  decode_fails (file_data file) ->
  rejected (ocr_upload file) w 400 [CallImageOpen]
  /\ rejected (ocr_upload_and_classify file) w 400 [CallImageOpen].
Proof.
  intros H Hsize [m Hm]. eapply rejected_both.
  unfold validate_and_load_image. rewrite H, Hsize.
  unfold try_except, open_image, bindM, log, lift. cbn [fst snd].
  destruct Hm as [Hm|Hm]; rewrite Hm; reflexivity.
Qed.

(** C6, as the code has it.  An upload that fails one of the checks of
    [validate_and_load_image] is answered with a 4xx status by both upload
    handlers, with the globals of both facades untouched and no call of
    the OCR facade or of the classifier in the trace: a content type that
    is not an image gives 400 and an oversized payload 400 or 413, both
    without any attempt to decode; bytes that [Image.open] refuses with
    [UnidentifiedImageError] or [OSError] give a 4xx status with at most
    the decoding attempt in the trace.  [Image.open] reads no pixels, so
    bytes that fail to decode only when the OCR backend loads them are not
    covered. *)
Theorem validation_rejects_before_models (file : UploadFile) (w : World) :
  (not_an_image file = true ->
     rejected (ocr_upload file) w 400 []
     /\ rejected (ocr_upload_and_classify file) w 400 [])
  /\
  ((max_upload_size < Z.of_nat (String.length (file_data file)))%Z ->
     exists code, (400 <= code < 500)%Z
       /\ rejected (ocr_upload file) w code []
       /\ rejected (ocr_upload_and_classify file) w code [])
  /\
  (decode_fails (file_data file) ->
     exists code evs, (400 <= code < 500)%Z
       /\ forallb (fun ev => negb (ocr_event ev) && negb (classifier_event ev)) evs
          = true
       /\ rejected (ocr_upload file) w code evs
       /\ rejected (ocr_upload_and_classify file) w code evs).
Proof.
  split; [|split].
  - apply validate_not_an_image.
  - intros Hsize. destruct (not_an_image file) eqn:Hct.
    + exists 400%Z. split; [lia|]. apply validate_not_an_image. exact Hct.
    + exists 413%Z. split; [lia|]. apply validate_too_large; assumption.
  - intros Hdec. destruct (not_an_image file) eqn:Hct.
    + exists 400%Z, []. split; [lia|]. split; [reflexivity|].
      apply validate_not_an_image. exact Hct.
    + destruct (max_upload_size <? Z.of_nat (String.length (file_data file)))%Z
        eqn:Hsize.
      * exists 413%Z, []. split; [lia|]. split; [reflexivity|].
        apply validate_too_large; [exact Hct|]. apply Z.ltb_lt. exact Hsize.
      * exists 400%Z, [CallImageOpen]. split; [lia|]. split; [reflexivity|].
        apply validate_undecodable; assumption.
Qed.

(** *** An unavailable classifier *)

(** C7, as the code has it.  When [get_model] raises, that is when loading
    the classifier fails, the health check answers 503, whereas the two
    classification endpoints answer 500, each with the message of the
    exception. *)
Theorem unavailable_model_statuses (w w' : World) (e : exn) (text : string)
    (texts : list string) :
  get_model w = (Raise e, w') ->
  health w
  = (Raise (HTTPException 503 (String.append "Service unhealthy: " (str_exn e))), w')
  /\ predict text w
     = (Raise (HTTPException 500 (String.append "Prediction failed: " (str_exn e))), w')
  /\ predict_batch texts w
     = (Raise (HTTPException 500
                 (String.append "Batch prediction failed: " (str_exn e))), w').
Proof.
  intros H. unfold health, predict, predict_batch, try_except, bindM.
  rewrite H. repeat split.
Qed.

(** An unloaded instance that an earlier failed load left behind is not
    seen by the health check, which answers normally. *)
Lemma health_with_unloaded_instance (w : World) (m : Model.LegalTextClassifier) :
  model_instance w = Some m ->
  fst (health w)
  = Ok {| status := "healthy"; health_model_loaded := Model.model_loaded m |}.
Proof.
  intros H. unfold health, try_except, bindM, get_model, log, ret. cbn.
  rewrite H. reflexivity.
Qed.

End WithService.

Lemma classification_failure_is_swallowed_witness :
  exists r w',
    ocr_upload_and_classify (settings := Samples.settings)
      (tf := Samples.unreachable_model) (pil := Samples.pillow)
      Samples.scan_upload initial_world
    = (Ok {| ocr_result := r; classification := None |}, w')
    /\ OcrModel.text r = "Dieu 1. Pham vi"%string
    /\ trace w'
       = [CallImageOpen; CallGetOcrProcessor; CallProcessImage; CallGetModel].
Proof.
  eexists. eexists. split.
  - eapply (classification_failure_is_swallowed (settings := Samples.settings)
              (tf := Samples.unreachable_model) (pil := Samples.pillow)
              Samples.scan_upload initial_world).
    + reflexivity.
    + reflexivity.
  - split; reflexivity.
Defined.

Lemma empty_text_skips_classification_witness :
  exists r w1,
    ocr_upload_and_classify (settings := Samples.settings)
      (tf := Samples.two_label_model) (pil := Samples.pillow)
      Samples.blank_upload initial_world
    = (Ok {| ocr_result := r; classification := None |}, w1)
    /\ model_instance w1 = None
    /\ exists evs, trace w1 = [] ++ evs
                   /\ forallb (fun ev => negb (classifier_event ev)) evs = true.
Proof.
  eexists. eexists.
  eapply (empty_text_skips_classification (settings := Samples.settings)
            (tf := Samples.two_label_model) (pil := Samples.pillow)
            Samples.blank_upload initial_world).
  - reflexivity.
  - reflexivity.
Defined.

Lemma validation_rejects_before_models_witness :
  (rejected (ocr_upload (settings := Samples.settings) (pil := Samples.pillow)
               Samples.text_upload) initial_world 400 []
   /\ rejected (ocr_upload_and_classify (settings := Samples.settings)
                  (tf := Samples.two_label_model) (pil := Samples.pillow)
                  Samples.text_upload) initial_world 400 [])
  /\
  (exists code, (400 <= code < 500)%Z
     /\ rejected (ocr_upload (settings := Samples.tight_settings)
                    (pil := Samples.pillow) Samples.long_upload)
                 initial_world code []
     /\ rejected (ocr_upload_and_classify (settings := Samples.tight_settings)
                    (tf := Samples.two_label_model) (pil := Samples.pillow)
                    Samples.long_upload) initial_world code [])
  /\
  (exists code evs, (400 <= code < 500)%Z
     /\ forallb (fun ev => negb (ocr_event ev) && negb (classifier_event ev)) evs
        = true
     /\ rejected (ocr_upload (settings := Samples.settings) (pil := Samples.pillow)
                    Samples.broken_upload) initial_world code evs
     /\ rejected (ocr_upload_and_classify (settings := Samples.settings)
                    (tf := Samples.two_label_model) (pil := Samples.pillow)
                    Samples.broken_upload) initial_world code evs).
Proof.
  split; [|split].
  - apply (validation_rejects_before_models (settings := Samples.settings)
             (tf := Samples.two_label_model) (pil := Samples.pillow)
             Samples.text_upload initial_world).
    reflexivity.
  - apply (validation_rejects_before_models (settings := Samples.tight_settings)
             (tf := Samples.two_label_model) (pil := Samples.pillow)
             Samples.long_upload initial_world).
    reflexivity.
  - apply (validation_rejects_before_models (settings := Samples.settings)
             (tf := Samples.two_label_model) (pil := Samples.pillow)
             Samples.broken_upload initial_world).
    exists "cannot identify image file"%string. left. reflexivity.
Defined.

Lemma unavailable_model_statuses_witness :
  exists w',
    health (tf := Samples.unreachable_model) initial_world
    = (Raise (HTTPException 503 "Service unhealthy: Can't load tokenizer"), w')
    /\ predict (tf := Samples.unreachable_model) "Dieu 1." initial_world
       = (Raise (HTTPException 500 "Prediction failed: Can't load tokenizer"), w')
    /\ predict_batch (tf := Samples.unreachable_model) ["Dieu 1."%string] initial_world
       = (Raise (HTTPException 500 "Batch prediction failed: Can't load tokenizer"), w').
Proof.
  eexists.
  apply (unavailable_model_statuses (tf := Samples.unreachable_model)
           initial_world _ (OSError "Can't load tokenizer") "Dieu 1."%string
           ["Dieu 1."%string]).
  reflexivity.
Defined.

(** C6 as stated fails for bytes that do not decode.  The upload declares
    an image, is within the size limit and has a header that [Image.open]
    accepts, so validation passes; its pixel data is cut short, which
    shows only when the OCR backend reads the image.  Both upload handlers
    answer 500, not a 4xx status, and by then the OCR facade has been
    called: a processor has been built and [process_image] has run. *)
Lemma truncated_image_is_answered_500 :
  let err :=
    HTTPException 500
      "OCR processing failed: image file is truncated (12 bytes not processed)" in
  let w' :=
    {| model_instance := None;
       ocr_globals :=
         {| OcrModel.objects :=
              [ {| OcrModel.engine := "easyocr";
                   OcrModel.languages := ["vi"; "en"]%string;
                   OcrModel.reader := Some ["vi"; "en"]%string;
                   OcrModel._initialized := true |} ];
            OcrModel._ocr_processor := Some 0 |};
       trace := [CallImageOpen; CallGetOcrProcessor; CallProcessImage] |} in
  not_an_image Samples.truncated_upload = false
  /\ (Z.of_nat (String.length (file_data Samples.truncated_upload))
      <= max_upload_size (Settings := Samples.settings))%Z
  /\ Image_open (ImageDecoder := Samples.header_pillow)
       (file_data Samples.truncated_upload) = Ok "PNG sca"%string
  /\ OcrModel.readtext (OcrBackends := Samples.truncating_engines)
       ["vi"; "en"]%string "PNG sca"%string
     = Raise (OSError "image file is truncated (12 bytes not processed)")
  /\ ocr_upload (settings := Samples.settings) (pil := Samples.header_pillow)
       Samples.truncated_upload initial_world = (Raise err, w')
  /\ ocr_upload_and_classify (settings := Samples.settings)
       (tf := Samples.two_label_model) (pil := Samples.header_pillow)
       Samples.truncated_upload initial_world = (Raise err, w')
  /\ ~ (400 <= 500 < 500)%Z
  /\ existsb ocr_event (trace w') = true.
Proof.
  cbv zeta. repeat split; try reflexivity.
  - cbn. lia.
  - lia.
Qed.

(** C7 as stated fails: with a model that cannot be loaded, [get_model]
    raises and [POST /predict] answers 500, not 503. *)
Lemma predict_answers_500_when_load_fails :
  (exists e w', get_model (tf := Samples.unreachable_model) initial_world
                = (Raise e, w'))
  /\ fst (predict (tf := Samples.unreachable_model) "Dieu 1." initial_world)
     = Raise (HTTPException 500 "Prediction failed: Can't load tokenizer")
  /\ forall detail,
       fst (predict (tf := Samples.unreachable_model) "Dieu 1." initial_world)
       <> Raise (HTTPException 503 detail).
Proof.
  split; [|split].
  - eexists. eexists. reflexivity.
  - reflexivity.
  - intros detail H. cbv in H. discriminate H.
Qed.

End ApiFacts.

(** ** More on the classifier facade *)
Module ModelMore.
Import Py Model ModelSpec ModelFacts.

Lemma softmax_entry (l : list R) (j : nat) (x : R) :
  nth_error l j = Some x ->
  nth_error (softmax l) j = Some (exp x / Rsum (map exp l))%R.
Proof.
  intros H. unfold softmax. rewrite nth_error_map, H. reflexivity.
Qed.




Lemma dict_set_fresh {V} (d : list (string * V)) (k : string) (v : V) :
  ~ In k (map fst d) -> dict_set d k v = d ++ [(k, v)].
Proof.
  induction d as [|[k' v'] t IH]; intros Hk; [reflexivity|].
  cbn [dict_set]. destruct (String.eqb k' k) eqn:E.
  - apply String.eqb_eq in E. exfalso. apply Hk. left. exact E.
  - cbn [app]. f_equal. apply IH. intros Hin. apply Hk. right. exact Hin.
Qed.

(** Writing pairs with pairwise distinct fresh keys into a dict appends
    them in order. *)
Lemma fold_dict_set_fresh {V} (f : nat -> string) (ps : list (nat * V)) :
  forall d,
    NoDup (map fst d ++ map (fun p => f (fst p)) ps) ->
    fold_left (fun d p => dict_set d (f (fst p)) (snd p)) ps d
    = d ++ map (fun p => (f (fst p), snd p)) ps.
Proof.
  induction ps as [|[i v] ps IH]; intros d Hnd.
  - simpl. rewrite app_nil_r. reflexivity.
  - cbn [fold_left map fst snd] in *.
    pose proof (NoDup_remove_2 _ _ _ Hnd) as Hfresh.
    rewrite dict_set_fresh.
    + rewrite IH.
      * rewrite <- app_assoc. reflexivity.
      * rewrite map_app. cbn [map fst]. rewrite <- app_assoc. exact Hnd.
    + intros Hin. apply Hfresh. apply in_or_app. left. exact Hin.
Qed.

Lemma map_pair_enumerate {V} (f : nat -> string) (vs : list V) :
  forall n,
    map (fun p : nat * V => (f (fst p), snd p)) (combine (seq n (List.length vs)) vs)
    = combine (map f (seq n (List.length vs))) vs.
Proof.
  induction vs as [|v t IH]; intros n; [reflexivity|].
  simpl. f_equal. apply IH.
Qed.

Lemma map_key_enumerate {V} (f : nat -> string) (vs : list V) :
  forall n,
    map (fun p : nat * V => f (fst p)) (combine (seq n (List.length vs)) vs)
    = map f (seq n (List.length vs)).
Proof.
  induction vs as [|v t IH]; intros n; [reflexivity|].
  simpl. f_equal. apply IH.
Qed.

Lemma label_scores_distinct (labels : list (nat * string)) (scores : list R) :
  NoDup (map (label_name labels) (seq 0 (List.length scores))) ->
  label_scores labels scores
  = combine (map (label_name labels) (seq 0 (List.length scores))) scores.
Proof.
  intros Hnd.
  change (label_scores labels scores)
    with (fold_left (fun d p => dict_set d (label_name labels (fst p)) (snd p))
            (combine (seq 0 (List.length scores)) scores) []).
  rewrite (fold_dict_set_fresh (label_name labels)).
  - cbn [app]. apply map_pair_enumerate.
  - cbn [map app]. rewrite map_key_enumerate. exact Hnd.
Qed.

Lemma dict_lookup_combine {V} (ks : list string) (vs : list V) (i : nat)
    (k : string) (v : V) :
  NoDup ks ->
  nth_error ks i = Some k ->
  nth_error vs i = Some v ->
  dict_lookup (combine ks vs) k = Some v.
Proof.
  revert vs i. induction ks as [|k0 ks IH]; intros vs i Hnd Hk Hv.
  - destruct i; discriminate.
  - destruct vs as [|v0 vs]; [destruct i; discriminate|].
    inversion Hnd as [|? ? Hnotin Hnd']; subst. cbn [combine dict_lookup].
    destruct i as [|i]; cbn [nth_error] in Hk, Hv.
    + injection Hk as ->. injection Hv as ->. rewrite String.eqb_refl. reflexivity.
    + destruct (String.eqb k0 k) eqn:E.
      * apply String.eqb_eq in E. subst k0. exfalso. apply Hnotin.
        eapply nth_error_In; eauto.
      * eapply IH; eauto.
Qed.

Section WithTransformer.
Context {tf : Transformer}.


(** Labels of [predict].  When the model has a label table whose names for
    the classes are pairwise distinct, [predicted_label] is the name of the
    predicted class, [all_labels] pairs the names with the scores class by
    class, and looking the predicted label up in [all_labels] gives the
    confidence. *)
Theorem predict_labels_distinct (self : LegalTextClassifier) (text : string)
    (logits : list R) (labels : list (nat * string)) :
  model_loaded self = true ->
  forward [text] = Ok [logits] ->
  logits <> [] ->
  id2label = Some labels ->
  labels <> [] ->
  NoDup (map (label_name labels) (seq 0 (List.length logits))) ->
  exists r d, predict self text = Ok r
    /\ predicted_label r = Some (label_name labels (predicted_class r))
    /\ all_labels r = Some d
    /\ d = combine (map (label_name labels) (seq 0 (List.length logits)))
                   (all_scores r)
    /\ dict_lookup d (label_name labels (predicted_class r)) = Some (confidence r).
Proof.
  intros Hl Hf Hne Hlab Hlne Hnd.
  rewrite (predict_unfold self text logits Hl Hf).
  destruct (row_result_spec (softmax logits) (softmax_nonempty logits Hne))
    as [r [Hr [Hs [[Hk _] Hconf]]]].
  unfold row_result in Hr |- *.
  destruct (argmax (softmax logits)) as [pc|e] eqn:Ha; cbn [bind] in Hr |- *;
    [|discriminate].
  destruct (index (softmax logits) pc) as [conf|e] eqn:Hi; cbn [bind] in Hr |- *;
    [|discriminate].
  rewrite Hlab in Hr |- *. destruct labels as [|lbl lbls]; [congruence|].
  injection Hr as <-. cbn [predicted_class confidence all_scores] in *.
  rewrite softmax_length in Hk.
  eexists. eexists. split; [reflexivity|split; [|split; [|split]]].
  - reflexivity.
  - cbn [all_labels]. reflexivity.
  - cbn [all_scores]. rewrite <- (softmax_length logits).
    apply label_scores_distinct. rewrite softmax_length. exact Hnd.
  - cbn [predicted_class confidence].
    rewrite label_scores_distinct by (rewrite softmax_length; exact Hnd).
    rewrite softmax_length.
    apply (dict_lookup_combine _ _ pc); [exact Hnd| |exact Hconf].
    rewrite nth_error_map, nth_error_seq.
    apply Nat.ltb_lt in Hk. rewrite Hk. reflexivity.
Qed.

(** [get_model] loads at most once.  Whatever the first call did, the
    global holds an instance afterwards and every later call returns that
    instance without touching the loader.  A first call that raised (the
    load failed) leaves an instance that is not loaded. *)
Theorem get_model_loads_once (model_instance model_instance' : option LegalTextClassifier)
    (r : result LegalTextClassifier) :
  get_model model_instance = (r, model_instance') ->
  exists m, model_instance' = Some m
    /\ get_model model_instance' = (Ok m, model_instance')
    /\ match r with
       | Ok m' => m' = m
       | Raise e => model_instance = None /\ from_pretrained = Some e
                    /\ model_loaded m = false
       end.
Proof.
  unfold get_model, load_model. destruct model_instance as [m0|].
  - intros H. injection H as <- <-. exists m0. auto.
  - destruct from_pretrained as [e|]; intros H; injection H as <- <-;
      eexists; repeat split; reflexivity.
Qed.

End WithTransformer.


Lemma predict_labels_distinct_witness :
  exists r d, @predict Samples.two_label_model Samples.loaded "Dieu 1" = Ok r
    /\ predicted_label r
       = Some (label_name [(0, "LABEL_A"); (1, "LABEL_B")]%string (predicted_class r))
    /\ all_labels r = Some d
    /\ d = combine ["LABEL_A"; "LABEL_B"]%string (all_scores r)
    /\ dict_lookup d
         (label_name [(0, "LABEL_A"); (1, "LABEL_B")]%string (predicted_class r))
       = Some (confidence r).
Proof.
  apply (@predict_labels_distinct Samples.two_label_model Samples.loaded "Dieu 1"
           [0%R; INR 6] [(0, "LABEL_A"); (1, "LABEL_B")]%string).
  - reflexivity.
  - reflexivity.
  - discriminate.
  - reflexivity.
  - discriminate.
  - repeat constructor; cbn; intuition discriminate.
Defined.

Lemma get_model_loads_once_witness :
  exists m,
    Some Samples.loaded = Some m
    /\ @get_model Samples.two_label_model (Some Samples.loaded)
       = (Ok m, Some Samples.loaded)
    /\ Samples.loaded = m.
Proof.
  apply (@get_model_loads_once Samples.two_label_model None (Some Samples.loaded)
           (Ok Samples.loaded)).
  reflexivity.
Defined.

(** Two classes that share a name share one entry of [all_labels]: the
    later score replaces the earlier one. *)
Example label_scores_shared_name (a b : R) :
  label_scores [(0, "A"); (1, "A")]%string [a; b] = [("A"%string, b)].
Proof. reflexivity. Qed.

(** A class without an entry in the table is named after its index. *)
Example label_scores_missing_name (a b : R) :
  label_scores [(0, "A")]%string [a; b] = [("A"%string, a); ("LABEL_1"%string, b)].
Proof. reflexivity. Qed.

End ModelMore.

(** ** More on the OCR facade *)
Module OcrMore.
Import Py OcrModel OcrSpec OcrFacts.

Lemma list_eqb_eq (l1 l2 : list string) : list_eqb l1 l2 = true <-> l1 = l2.
Proof.
  split.
  - revert l2. induction l1 as [|a r1 IH]; intros [|b r2] H; try discriminate.
    + reflexivity.
    + cbn [list_eqb] in H. apply andb_prop in H. destruct H as [Hab Hr].
      apply String.eqb_eq in Hab. subst. f_equal. apply IH. exact Hr.
  - intros ->. apply PyFacts.list_eqb_refl.
Qed.

Lemma int_of_pos_ge_1 (q : Q) : (0 < int_of q)%Z -> (1 <= q)%Q.
Proof.
  unfold int_of. intros H.
  assert (Hd : (0 < Z.pos (Qden q))%Z) by lia.
  assert (Hn : (Z.pos (Qden q) <= Qnum q)%Z).
  { destruct (Z_lt_le_dec (Qnum q) (Z.pos (Qden q))) as [Hlt|Hge]; [|exact Hge].
    exfalso. destruct (Z_lt_le_dec (Qnum q) 0) as [Hneg|Hpos].
    - assert (Qnum q ÷ Z.pos (Qden q) <= 0)%Z
        by (apply Z.quot_le_upper_bound; lia).
      lia.
    - rewrite Z.quot_small in H by lia. lia. }
  unfold Qle. cbn [Qnum Qden]. lia.
Qed.

Section WithBackends.
Context {ocr : OcrBackends}.

(** *** Outcomes of [initialize] *)

Lemma initialize_failure (self self' : OCRProcessor) (err : exn) :
  initialize self = (Raise err, self') ->
  self' = self /\ _initialized self = false.
Proof.
  unfold initialize. destruct (_initialized self); [discriminate|].
  destruct (String.eqb (engine self) "easyocr").
  - destruct (negb EASYOCR_AVAILABLE); [intros H; injection H as _ <-; auto|].
    destruct (easyocr_Reader (languages self)); [discriminate|].
    intros H; injection H as _ <-; auto.
  - destruct (String.eqb (engine self) "tesseract").
    + destruct (negb PYTESSERACT_AVAILABLE); [intros H; injection H as _ <-; auto|].
      destruct get_tesseract_version; [discriminate|].
      intros H; injection H as _ <-; auto.
    + intros H; injection H as _ <-; auto.
Qed.

Lemma initialize_success (self self' : OCRProcessor) :
  initialize self = (Ok tt, self') ->
  _initialized self' = true
  /\ (engine self = "easyocr"%string \/ engine self = "tesseract"%string
      \/ _initialized self = true).
Proof.
  unfold initialize. destruct (_initialized self) eqn:Hi.
  - intros H; injection H as <-. auto.
  - destruct (String.eqb (engine self) "easyocr") eqn:He.
    + apply String.eqb_eq in He.
      destruct (negb EASYOCR_AVAILABLE); [discriminate|].
      destruct (easyocr_Reader (languages self)); [|discriminate].
      intros H; injection H as <-. auto.
    + destruct (String.eqb (engine self) "tesseract") eqn:Ht; [|discriminate].
      apply String.eqb_eq in Ht.
      destruct (negb PYTESSERACT_AVAILABLE); [discriminate|].
      destruct get_tesseract_version; [|discriminate].
      intros H; injection H as <-. auto.
Qed.

(** *** The cache key of [get_ocr_processor] *)

Lemma get_ocr_processor_hit (e : string) (l : option (list string)) (g : Globals)
    (ref : nat) (p : OCRProcessor) :
  _ocr_processor g = Some ref ->
  deref g ref = Some p ->
  engine p = e ->
  languages p = languages_or_default l ->
  get_ocr_processor e l g = (Ok ref, g).
Proof.
  intros Hg Hp He Hl. unfold get_ocr_processor.
  rewrite Hg, Hp, He, Hl, String.eqb_refl, PyFacts.list_eqb_refl. reflexivity.
Qed.

Lemma get_ocr_processor_miss (e : string) (l : option (list string)) (g : Globals)
    (ref : nat) (p : OCRProcessor) :
  _ocr_processor g = Some ref ->
  deref g ref = Some p ->
  engine p <> e \/ languages p <> languages_or_default l ->
  get_ocr_processor e l g = new_processor e (languages_or_default l) g.
Proof.
  intros Hg Hp Hkey. unfold get_ocr_processor. rewrite Hg, Hp.
  destruct (String.eqb (engine p) e) eqn:He.
  - destruct (list_eqb (languages p) (languages_or_default l)) eqn:Hl.
    + apply String.eqb_eq in He. apply list_eqb_eq in Hl.
      destruct Hkey; contradiction.
    + reflexivity.
  - reflexivity.
Qed.

(** The processor is rebuilt exactly when the key changes.  With a
    processor [p] cached, a call whose engine argument equals the stored
    engine name and whose languages equal the stored ones returns the
    cached reference and changes nothing; any other call builds a new
    processor under a fresh reference, makes it the global and leaves [p]
    where it was. *)
Theorem get_ocr_processor_rebuilds_iff (e : string) (l : option (list string))
    (g : Globals) (ref : nat) (p : OCRProcessor) :
  _ocr_processor g = Some ref ->
  deref g ref = Some p ->
  (engine p = e /\ languages p = languages_or_default l ->
     get_ocr_processor e l g = (Ok ref, g))
  /\
  (engine p <> e \/ languages p <> languages_or_default l ->
     let g' := snd (get_ocr_processor e l g) in
     _ocr_processor g' = Some (List.length (objects g))
     /\ List.length (objects g) <> ref
     /\ deref g' ref = Some p
     /\ exists q, deref g' (List.length (objects g)) = Some q
                  /\ engine q = lower e
                  /\ languages q = languages_or_default l).
Proof.
  intros Hg Hp. split.
  - intros [He Hl]. eapply get_ocr_processor_hit; eauto.
  - intros Hkey g'. subst g'.
    rewrite (get_ocr_processor_miss e l g ref p Hg Hp Hkey).
    destruct (new_processor_spec e l g) as [q [Hnew [He [Hl _]]]].
    rewrite Hnew. cbn [_ocr_processor].
    assert (Hlt : ref < List.length (objects g)).
    { apply nth_error_Some. unfold deref in Hp. congruence. }
    split; [reflexivity|]. split; [lia|]. split.
    + unfold deref in *. cbn [objects]. rewrite nth_error_app1 by exact Hlt.
      exact Hp.
    + exists q. rewrite deref_last. auto.
Qed.

(** *** Repeated calls *)

Lemma repeat_get_S (e : string) (l : option (list string)) (n : nat) (g : Globals) :
  repeat_get e l (S n) g = snd (get_ocr_processor e l (repeat_get e l n g)).
Proof. reflexivity. Qed.

(** With an engine name in lower case, any number of calls with the same
    arguments builds one processor: the state after the first call is the
    state after every later one, it holds a single object, and each later
    call returns the reference 0.  This holds whether or not the engine
    could be initialized. *)
Theorem lower_case_engine_single_processor (e : string) (l : option (list string))
    (n : nat) :
  lower e = e ->
  repeat_get e l (S n) initial_globals = repeat_get e l 1 initial_globals
  /\ List.length (objects (repeat_get e l (S n) initial_globals)) = 1
  /\ fst (get_ocr_processor e l (repeat_get e l (S n) initial_globals)) = Ok 0.
Proof.
  intros Hlow.
  destruct (new_processor_spec e l initial_globals) as [q [Hnew [He [Hl _]]]].
  assert (H1 : repeat_get e l 1 initial_globals
               = {| objects := [q]; _ocr_processor := Some 0 |}).
  { exact Hnew. }
  assert (Hhit : get_ocr_processor e l {| objects := [q]; _ocr_processor := Some 0 |}
                 = (Ok 0, {| objects := [q]; _ocr_processor := Some 0 |})).
  { apply (get_ocr_processor_hit e l _ 0 q); try reflexivity; congruence. }
  assert (Hn : repeat_get e l (S n) initial_globals
               = {| objects := [q]; _ocr_processor := Some 0 |}).
  { induction n as [|n IH]; [exact H1|].
    rewrite repeat_get_S, IH, Hhit. reflexivity. }
  rewrite Hn, H1, Hhit. repeat split.
Qed.

(** With an engine name that has an upper-case letter, every call builds
    a processor: after [n] calls the module holds [n] of them. *)
Theorem mixed_case_engine_builds_every_time (e : string) (l : option (list string))
    (n : nat) :
  lower e <> e ->
  List.length (objects (repeat_get e l n initial_globals)) = n.
Proof.
  intros Hlow.
  assert (Hinv : List.length (objects (repeat_get e l n initial_globals)) = n
                 /\ forall ref, _ocr_processor (repeat_get e l n initial_globals)
                                = Some ref ->
                      exists p, deref (repeat_get e l n initial_globals) ref = Some p
                                /\ engine p = lower e).
  { induction n as [|n [IHlen IHglob]].
    - split; [reflexivity|]. intros ref H. discriminate.
    - rewrite repeat_get_S. set (g := repeat_get e l n initial_globals) in *.
      assert (Hget : get_ocr_processor e l g
                     = new_processor e (languages_or_default l) g).
      { destruct (_ocr_processor g) as [ref|] eqn:Hg.
        - destruct (IHglob ref eq_refl) as [p [Hp He]].
          apply (get_ocr_processor_miss e l g ref p Hg Hp).
          left. congruence.
        - unfold get_ocr_processor. rewrite Hg. reflexivity. }
      rewrite Hget.
      destruct (new_processor_spec e l g) as [q [Hnew [He [Hl _]]]].
      rewrite Hnew. cbn [objects _ocr_processor]. split.
      + rewrite length_app. simpl. lia.
      + intros ref Href. injection Href as <-. exists q.
        rewrite deref_last. auto. }
  apply Hinv.
Qed.

(** A failed initialization is cached too.  When [get_ocr_processor]
    raises because the engine could not be initialized, the processor it
    built stays in the global; with an engine name in lower case the next
    call with the same arguments returns it without raising, although it is
    not initialized, and the error comes back from [process_image]. *)
Theorem failed_initialization_is_cached (e : string) (l : option (list string))
    (g g1 : Globals) (err : exn) :
  lower e = e ->
  globals_wf g ->
  get_ocr_processor e l g = (Raise err, g1) ->
  exists ref p,
    get_ocr_processor e l g1 = (Ok ref, g1)
    /\ deref g1 ref = Some p
    /\ _initialized p = false
    /\ forall image, fst (call_process_image ref image g1) = Raise err.
Proof.
  intros Hlow Hwf Hget.
  assert (Hnew : new_processor e (languages_or_default l) g = (Raise err, g1)).
  { unfold get_ocr_processor in Hget.
    destruct (_ocr_processor g) as [ref0|] eqn:Hg; [|exact Hget].
    destruct (deref g ref0) as [p0|] eqn:Hp0.
    - destruct (negb (String.eqb (engine p0) e) || _); [exact Hget|discriminate].
    - exfalso. apply nth_error_None in Hp0. specialize (Hwf ref0 Hg). lia. }
  unfold new_processor in Hnew.
  destruct (initialize (OCRProcessor__init__ e (Some (languages_or_default l))))
    as [r self'] eqn:Hinit.
  destruct r as [u|err']; [discriminate|]. injection Hnew as -> <-.
  destruct (initialize_failure _ _ _ Hinit) as [-> Hfalse].
  set (self := OCRProcessor__init__ e (Some (languages_or_default l))) in *.
  exists (List.length (objects g)), self.
  split; [|split; [apply deref_last|split; [exact Hfalse|]]].
  - apply (get_ocr_processor_hit e l _ _ self).
    + reflexivity.
    + apply deref_last.
    + cbn. exact Hlow.
    + cbn [self languages OCRProcessor__init__]. apply languages_or_default_idem.
  - intros image. unfold call_process_image. rewrite deref_last.
    unfold process_image. rewrite Hfalse, Hinit. reflexivity.
Qed.

(** *** Results of [process_image] *)

Lemma easyocr_tag (self : OCRProcessor) (image : Image) (r : OCRResult) :
  _process_with_easyocr self image = Ok r -> result_engine r = "easyocr"%string.
Proof.
  unfold _process_with_easyocr. destruct (reader self); [|discriminate].
  destruct (readtext l image); cbn [bind]; [|discriminate].
  destruct (easyocr_loop a [] [] []) as [[texts confidences] full_text].
  intros H. injection H as <-. reflexivity.
Qed.

Lemma tesseract_tag (self : OCRProcessor) (image : Image) (r : OCRResult) :
  _process_with_tesseract self image = Ok r -> result_engine r = "tesseract"%string.
Proof.
  unfold _process_with_tesseract.
  destruct (image_to_string image (lang_string self)); cbn [bind]; [|discriminate].
  destruct (image_to_data image (lang_string self)); cbn [bind]; [|discriminate].
  destruct (tesseract_loop _ _ [] []) as [[lns confidences]|]; cbn [bind];
    [|discriminate].
  intros H. injection H as <-. reflexivity.
Qed.

Lemma dispatch_success (self self' : OCRProcessor) (image : Image) (r : OCRResult) :
  (if String.eqb (engine self) "easyocr" then (_process_with_easyocr self image, self)
   else if String.eqb (engine self) "tesseract" then
     (_process_with_tesseract self image, self)
   else (Raise (ValueError (String.append "Unknown OCR engine: " (engine self))), self))
  = (Ok r, self') ->
  self' = self /\ result_engine r = engine self
  /\ (engine self = "easyocr"%string \/ engine self = "tesseract"%string).
Proof.
  destruct (String.eqb (engine self) "easyocr") eqn:He.
  - apply String.eqb_eq in He. intros H. injection H as H <-.
    apply easyocr_tag in H. rewrite He. auto.
  - destruct (String.eqb (engine self) "tesseract") eqn:Ht; [|discriminate].
    apply String.eqb_eq in Ht. intros H. injection H as H <-.
    apply tesseract_tag in H. rewrite Ht. auto.
Qed.

(** When [process_image] returns a result, the processor is initialized
    afterwards and keeps its engine and languages, its engine is one of
    the two known ones, and the result carries that engine as its tag. *)
Theorem process_image_success (self self' : OCRProcessor) (image : Image)
    (r : OCRResult) :
  process_image self image = (Ok r, self') ->
  _initialized self' = true
  /\ engine self' = engine self
  /\ languages self' = languages self
  /\ result_engine r = engine self
  /\ (engine self = "easyocr"%string \/ engine self = "tesseract"%string).
Proof.
  unfold process_image. destruct (_initialized self) eqn:Hi.
  - intros H. apply dispatch_success in H. destruct H as [-> [Htag Heng]]. auto.
  - pose proof (initialize_fields self) as [He Hl].
    destruct (initialize self) as [r0 self1] eqn:Hinit. cbn [snd] in He, Hl.
    destruct r0 as [[]|err]; [|discriminate].
    apply initialize_success in Hinit. destruct Hinit as [Hinit _].
    intros H. apply dispatch_success in H. destruct H as [-> [Htag Heng]].
    rewrite He in Htag, Heng. auto.
Qed.

(** With EasyOCR the text of a result is the texts of its lines, in the
    order of detection, joined by single spaces; a result without lines
    has the empty text. *)
Theorem easyocr_text_joins_lines (self : OCRProcessor) (image : Image)
    (r : OCRResult) :
  _process_with_easyocr self image = Ok r ->
  text r = String.concat " " (map line_text (lines r))
  /\ (lines r = [] -> text r = EmptyString).
Proof.
  intros H.
  assert (Htext : text r = String.concat " " (map line_text (lines r))).
  { unfold _process_with_easyocr in H.
    destruct (reader self) as [langs|] eqn:Hr; [|discriminate].
    destruct (readtext langs image) as [results|] eqn:Hread; [|discriminate].
    cbn [bind] in H. rewrite easyocr_loop_spec in H. cbn [app] in H.
    injection H as <-. cbn [text lines]. f_equal.
    rewrite map_map. apply map_ext. intros [[box t] c]. reflexivity. }
  split; [exact Htext|]. intros Hnil. rewrite Htext, Hnil. reflexivity.
Qed.

(** With Tesseract a box is kept only when its confidence is at least 1
    on the native scale, because the test truncates to an integer: every
    line of a result has a confidence of at least 0.01.  There are at most
    as many lines as boxes, and when no box has a negative width or height
    every bounding box has its corners in order. *)
Theorem tesseract_lines_at_least_one_percent (self : OCRProcessor) (image : Image)
    (txt : string) (data : TessData) :
  image_to_string image (lang_string self) = Ok txt ->
  image_to_data image (lang_string self) = Ok data ->
  columns_of_length data (List.length (col_text data)) ->
  exists r, _process_with_tesseract self image = Ok r
    /\ text r = strip txt
    /\ Forall (fun ln => (1 # 100 <= line_confidence ln)%Q) (lines r)
    /\ List.length (lines r) <= List.length (col_text data)
    /\ (Forall (fun w => (0 <= w)%Z) (col_width data) ->
        Forall (fun h => (0 <= h)%Z) (col_height data) ->
        Forall (fun ln => ordered_box (line_bbox ln)) (lines r)).
Proof.
  intros Hs Hd Hwf.
  destruct (tesseract_result self image txt data Hs Hd Hwf) as [lns [Hres Hall]].
  eexists. split; [exact Hres|]. cbn [text lines]. split; [reflexivity|].
  split; [|split].
  - apply (Forall2_Forall_r _ _ _ _ Hall).
    intros i ln Hin (c & l & tp & w & h & Hc & _ & _ & _ & _ & _ & Hconf & _).
    apply filter_In in Hin. destruct Hin as [_ Hk].
    unfold kept in Hk. rewrite Hc in Hk. apply Z.ltb_lt in Hk.
    apply int_of_pos_ge_1 in Hk. rewrite Hconf.
    apply Qle_shift_div_l; [reflexivity|]. 
    setoid_replace ((1 # 100) * 100)%Q with 1%Q by reflexivity. exact Hk.
  - rewrite <- (Forall2_length Hall).
    etransitivity; [apply filter_length_le|]. rewrite length_seq. lia.
  - intros Hw Hh. apply (Forall2_Forall_r _ _ _ _ Hall).
    intros i ln _ (c & l & tp & w & h & _ & _ & _ & _ & Hwi & Hhi & _ & Hbox).
    rewrite Hbox. cbn [ordered_box].
    rewrite Forall_forall in Hw, Hh.
    pose proof (Hw w (nth_error_In _ _ Hwi)).
    pose proof (Hh h (nth_error_In _ _ Hhi)). lia.
Qed.

(** *** What a successful [get_ocr_processor] returns *)

Lemma languages_or_default_nonempty (l : list string) :
  l <> [] -> languages_or_default (Some l) = l.
Proof. destruct l; [congruence|reflexivity]. Qed.

(** The reference returned is the global, and the processor behind it has
    the requested languages and the requested engine, as given or in lower
    case. *)
Lemma get_ocr_processor_result (e : string) (l : option (list string))
    (g g' : Globals) (ref : nat) :
  get_ocr_processor e l g = (Ok ref, g') ->
  _ocr_processor g' = Some ref
  /\ exists p, deref g' ref = Some p
               /\ languages p = languages_or_default l
               /\ (engine p = e \/ engine p = lower e).
Proof.
  assert (Hnew : new_processor e (languages_or_default l) g = (Ok ref, g') ->
                 _ocr_processor g' = Some ref
                 /\ exists p, deref g' ref = Some p
                              /\ languages p = languages_or_default l
                              /\ (engine p = e \/ engine p = lower e)).
  { intros H. destruct (new_processor_spec e l g) as [q [Hg [He [Hl Hr]]]].
    rewrite H in Hg, Hr. cbn [fst snd] in Hg, Hr.
    specialize (Hr ref eq_refl). subst ref g'. split; [reflexivity|].
    exists q. rewrite deref_last. auto. }
  unfold get_ocr_processor.
  destruct (_ocr_processor g) as [ref0|] eqn:Hglob; [|exact Hnew].
  destruct (deref g ref0) as [p|] eqn:Hp; [|discriminate].
  destruct (String.eqb (engine p) e) eqn:He; cbn [negb orb]; [|exact Hnew].
  destruct (list_eqb (languages p) (languages_or_default l)) eqn:Hl; cbn [negb];
    [|exact Hnew].
  intros H. injection H as <- <-. split; [exact Hglob|].
  exists p. apply String.eqb_eq in He. apply list_eqb_eq in Hl. auto.
Qed.

(** *** An engine the service does not know *)

Lemma initialize_unknown (self : OCRProcessor) :
  unknown_engine (engine self) ->
  _initialized self = false ->
  initialize self
  = (Raise (ValueError (String.append "Unknown OCR engine: " (engine self))), self).
Proof.
  intros [He Ht] Hi. unfold initialize. rewrite Hi.
  apply String.eqb_neq in He. apply String.eqb_neq in Ht. rewrite He, Ht.
  reflexivity.
Qed.

Lemma process_image_unknown (self : OCRProcessor) (image : Image) :
  unknown_engine (engine self) ->
  fst (process_image self image)
  = Raise (ValueError (String.append "Unknown OCR engine: " (engine self))).
Proof.
  intros Hunk. unfold process_image. destruct (_initialized self) eqn:Hi.
  - destruct Hunk as [He Ht].
    apply String.eqb_neq in He. apply String.eqb_neq in Ht. rewrite He, Ht.
    reflexivity.
  - rewrite (initialize_unknown self Hunk Hi). reflexivity.
Qed.

Lemma get_ocr_processor_unknown (e : string) (l : option (list string))
    (g : Globals) (err : exn) :
  unknown_engine (lower e) ->
  globals_wf g ->
  fst (get_ocr_processor e l g) = Raise err ->
  err = ValueError (String.append "Unknown OCR engine: " (lower e)).
Proof.
  intros Hunk Hwf.
  assert (Hnew : fst (new_processor e (languages_or_default l) g) = Raise err ->
                 err = ValueError (String.append "Unknown OCR engine: " (lower e))).
  { unfold new_processor.
    rewrite (initialize_unknown
               (OCRProcessor__init__ e (Some (languages_or_default l))) Hunk eq_refl).
    cbn. intros H. injection H as <-. reflexivity. }
  unfold get_ocr_processor.
  destruct (_ocr_processor g) as [ref0|] eqn:Hglob; [|exact Hnew].
  destruct (deref g ref0) as [p|] eqn:Hp.
  - destruct (negb (String.eqb (engine p) e) || _); [exact Hnew|discriminate].
  - exfalso. apply nth_error_None in Hp. specialize (Hwf ref0 Hglob). lia.
Qed.

End WithBackends.

(** The state after one successful call for EasyOCR *)
Lemma easyocr_cached_state :
  @get_ocr_processor Samples.engines "easyocr" None initial_globals
  = (Ok 0, {| objects := [Samples.easyocr_processor]; _ocr_processor := Some 0 |}).
Proof. reflexivity. Qed.

Lemma get_ocr_processor_rebuilds_iff_witness :
  let g := {| objects := [Samples.easyocr_processor]; _ocr_processor := Some 0 |} in
  @get_ocr_processor Samples.engines "easyocr" (Some ["vi"; "en"]%string) g = (Ok 0, g)
  /\
  (let g' := snd (@get_ocr_processor Samples.engines "easyocr" (Some ["en"]%string) g) in
   _ocr_processor g' = Some 1
   /\ 1 <> 0
   /\ deref g' 0 = Some Samples.easyocr_processor
   /\ exists q, deref g' 1 = Some q
                /\ engine q = "easyocr"%string
                /\ languages q = ["en"]%string).
Proof.
  intros g. split.
  - apply (proj1 (@get_ocr_processor_rebuilds_iff Samples.engines "easyocr"
                    (Some ["vi"; "en"]%string) g 0 Samples.easyocr_processor
                    eq_refl eq_refl)).
    split; reflexivity.
  - apply (proj2 (@get_ocr_processor_rebuilds_iff Samples.engines "easyocr"
                    (Some ["en"]%string) g 0 Samples.easyocr_processor
                    eq_refl eq_refl)).
    right. discriminate.
Defined.

Lemma lower_case_engine_single_processor_witness :
  @repeat_get Samples.engines "easyocr" None 4 initial_globals
  = @repeat_get Samples.engines "easyocr" None 1 initial_globals
  /\ List.length (objects (@repeat_get Samples.engines "easyocr" None 4 initial_globals))
     = 1
  /\ fst (@get_ocr_processor Samples.engines "easyocr" None
            (@repeat_get Samples.engines "easyocr" None 4 initial_globals))
     = Ok 0.
Proof.
  apply (@lower_case_engine_single_processor Samples.engines "easyocr" None 3).
  reflexivity.
Defined.

Lemma mixed_case_engine_builds_every_time_witness :
  List.length (objects (@repeat_get Samples.engines "EasyOCR" None 4 initial_globals))
  = 4.
Proof.
  apply (@mixed_case_engine_builds_every_time Samples.engines "EasyOCR" None 4).
  discriminate.
Defined.

Lemma failed_initialization_is_cached_witness :
  exists ref p,
    @get_ocr_processor Samples.engines "paddle" None
      {| objects := [OCRProcessor__init__ "paddle" None]; _ocr_processor := Some 0 |}
    = (Ok ref,
       {| objects := [OCRProcessor__init__ "paddle" None]; _ocr_processor := Some 0 |})
    /\ deref {| objects := [OCRProcessor__init__ "paddle" None];
                _ocr_processor := Some 0 |} ref = Some p
    /\ _initialized p = false
    /\ forall image,
         fst (@call_process_image Samples.engines ref image
                {| objects := [OCRProcessor__init__ "paddle" None];
                   _ocr_processor := Some 0 |})
         = Raise (ValueError "Unknown OCR engine: paddle").
Proof.
  apply (@failed_initialization_is_cached Samples.engines "paddle" None
           initial_globals).
  - reflexivity.
  - intros ref H. discriminate.
  - reflexivity.
Defined.

Lemma process_image_success_witness :
  _initialized Samples.tesseract_processor = true
  /\ engine Samples.tesseract_processor = engine Samples.tesseract_processor
  /\ languages Samples.tesseract_processor = languages Samples.tesseract_processor
  /\ result_engine
       {| text := "Dieu 1.";
          lines := [ {| line_text := "Dieu"; line_confidence := (96 / 100)%Q;
                        line_bbox := Rect 4 2 34 14 |};
                     {| line_text := "1."; line_confidence := ((913 # 10) / 100)%Q;
                        line_bbox := Rect 40 2 52 14 |} ];
          average_confidence := ((0 + 96 / 100 + (913 # 10) / 100) / inject_Z 2)%Q;
          result_engine := "tesseract" |}
     = engine Samples.tesseract_processor
  /\ (engine Samples.tesseract_processor = "easyocr"%string
      \/ engine Samples.tesseract_processor = "tesseract"%string).
Proof.
  apply (@process_image_success Samples.engines Samples.tesseract_processor
           Samples.tesseract_processor "scan.png"%string).
  reflexivity.
Defined.

Lemma easyocr_text_joins_lines_witness :
  exists r,
    @_process_with_easyocr Samples.engines Samples.easyocr_processor "scan.png"%string
    = Ok r
    /\ text r = "Dieu 1. Pham vi"%string
    /\ text r = String.concat " " (map line_text (lines r))
    /\ (lines r = [] -> text r = EmptyString).
Proof.
  eexists. split; [reflexivity|]. split; [reflexivity|].
  apply (@easyocr_text_joins_lines Samples.engines Samples.easyocr_processor
           "scan.png"%string).
  reflexivity.
Defined.

Lemma tesseract_lines_at_least_one_percent_witness :
  exists r,
    @_process_with_tesseract Samples.engines Samples.tesseract_processor
      "scan.png"%string = Ok r
    /\ text r = "Dieu 1."%string
    /\ Forall (fun ln => (1 # 100 <= line_confidence ln)%Q) (lines r)
    /\ List.length (lines r) <= 4
    /\ (Forall (fun w => (0 <= w)%Z) (col_width Samples.scan_data) ->
        Forall (fun h => (0 <= h)%Z) (col_height Samples.scan_data) ->
        Forall (fun ln => ordered_box (line_bbox ln)) (lines r)).
Proof.
  exact (@tesseract_lines_at_least_one_percent Samples.engines
           Samples.tesseract_processor "scan.png"%string " Dieu 1.  "%string
           Samples.scan_data eq_refl eq_refl scan_data_columns).
Defined.

(** A box Tesseract reports at 0.5 on its scale of 100 is dropped, although
    its confidence is above zero. *)
Example kept_drops_fractions :
  kept {| col_text := ["x"%string]; col_conf := [(1 # 2)%Q]; col_left := [0%Z];
          col_top := [0%Z]; col_width := [1%Z]; col_height := [1%Z] |} 0 = false.
Proof. reflexivity. Qed.

End OcrMore.

(** ** More on the HTTP layer *)
Module ApiMore.
Import Py Api ApiSpec ApiFacts.

Lemma prefix_nonempty (ct : string) :
  String.prefix "image/" ct = true -> truthy ct = true.
Proof. destruct ct; [discriminate|reflexivity]. Qed.

Lemma not_an_image_false (file : UploadFile) :
  not_an_image file = false
  <-> exists ct, content_type file = Some ct /\ String.prefix "image/" ct = true.
Proof.
  unfold not_an_image. destruct (content_type file) as [ct|]; split.
  - intros H. apply Bool.orb_false_iff in H. destruct H as [_ H].
    apply Bool.negb_false_iff in H. eauto.
  - intros [ct' [Hct Hp]]. injection Hct as <-.
    rewrite Hp, (prefix_nonempty ct Hp). reflexivity.
  - discriminate.
  - intros [ct' [Hct _]]. discriminate.
Qed.

Section WithService.
Context {settings : Settings} {tf : Model.Transformer}
        {ocr : OcrModel.OcrBackends} {pil : ImageDecoder}.

(** *** Validation *)

(** [validate_and_load_image] returns an image exactly when the content
    type starts with "image/", the payload is not longer than the limit (a
    payload of exactly the limit passes) and the decoder opens it; it then
    returns what the decoder returned, after one decoding attempt. *)
Theorem validate_accepts_iff (file : UploadFile) (w w' : World)
    (image : OcrModel.Image) :
  validate_and_load_image file w = (Ok image, w')
  <->
  (exists ct, content_type file = Some ct /\ String.prefix "image/" ct = true)
  /\ (Z.of_nat (String.length (file_data file)) <= max_upload_size)%Z
  /\ Image_open (file_data file) = Ok image
  /\ w' = {| model_instance := model_instance w;
             ocr_globals := ocr_globals w;
             trace := trace w ++ [CallImageOpen] |}.
Proof.
  unfold validate_and_load_image. split.
  - destruct (not_an_image file) eqn:Hct; [discriminate|].
    apply not_an_image_false in Hct.
    destruct (max_upload_size <? Z.of_nat (String.length (file_data file)))%Z
      eqn:Hsize; [discriminate|].
    apply Z.ltb_ge in Hsize.
    unfold try_except, open_image, bindM, log, lift. cbn [fst snd].
    destruct (Image_open (file_data file)) as [im|e] eqn:Hopen.
    + intros H. injection H as <- <-. auto.
    + destruct e; discriminate.
  - intros [Hct [Hsize [Hopen ->]]].
    apply not_an_image_false in Hct. apply Z.ltb_ge in Hsize.
    rewrite Hct, Hsize.
    unfold try_except, open_image, bindM, log, lift. cbn [fst snd].
    rewrite Hopen. reflexivity.
Qed.

(** The body of [ocr_upload] is the OCR stage. *)
Lemma ocr_upload_run (file : UploadFile) (w : World) :
  ocr_upload file w = try_except (run_ocr file) ocr_except w.
Proof.
  unfold ocr_upload, run_ocr, try_except, bindM, ret.
  destruct (validate_and_load_image file w) as [[image|e] w1]; [|reflexivity].
  destruct (get_configured_ocr_processor w1) as [[ref|e] w2]; [|reflexivity].
  destruct (process_image ref image w2) as [[r|e] w3]; reflexivity.
Qed.

(** An exception of the decoder other than the two that mean an invalid
    image is not a validation error: both upload handlers answer 500 with
    its message, after the decoding attempt and before any call of the OCR
    facade or of the classifier. *)
Theorem decoder_error_is_server_error (file : UploadFile) (w : World) (e : exn) :
  not_an_image file = false ->
  (Z.of_nat (String.length (file_data file)) <= max_upload_size)%Z ->
  Image_open (file_data file) = Raise e ->
  other_exception e ->
  let err :=
    HTTPException 500 (String.append "OCR processing failed: " (str_exn e)) in
  let w' :=
    {| model_instance := model_instance w;
       ocr_globals := ocr_globals w;
       trace := trace w ++ [CallImageOpen] |} in
  ocr_upload file w = (Raise err, w')
  /\ ocr_upload_and_classify file w = (Raise err, w').
Proof.
  intros Hct Hsize Hopen Hother err w'. subst err w'. apply Z.ltb_ge in Hsize.
  assert (Hval : validate_and_load_image file w
                 = (Raise e, {| model_instance := model_instance w;
                                ocr_globals := ocr_globals w;
                                trace := trace w ++ [CallImageOpen] |})).
  { unfold validate_and_load_image. rewrite Hct, Hsize.
    unfold try_except, open_image, bindM, log, lift. cbn [fst snd].
    rewrite Hopen. destruct e; try contradiction; reflexivity. }
  unfold ocr_upload, ocr_upload_and_classify, run_ocr, try_except, bindM.
  rewrite Hval. destruct e; try contradiction; split; reflexivity.
Qed.

(** *** Error translation *)

(** No endpoint lets an exception other than [HTTPException] escape.  The
    health check fails with 503 only and the two classification endpoints
    with 500 only, whatever was raised underneath. *)
Theorem endpoints_raise_only_http (w : World) :
  answers_with [503%Z] (fst (health w))
  /\ (forall text, answers_with [500%Z] (fst (predict text w)))
  /\ (forall texts, answers_with [500%Z] (fst (predict_batch texts w)))
  /\ (forall file, answers_http (fst (ocr_upload file w)))
  /\ (forall file, answers_http (fst (ocr_upload_and_classify file w))).
Proof.
  split; [|split; [|split; [|split]]].
  - unfold health, try_except. destruct (bindM _ _ w) as [[a|e] w']; cbn; auto.
  - intros text. unfold predict, try_except.
    destruct (bindM _ _ w) as [[a|e] w']; cbn; auto.
  - intros texts. unfold predict_batch, try_except.
    destruct (bindM _ _ w) as [[a|e] w']; cbn; auto.
  - intros file. unfold ocr_upload, try_except.
    destruct (bindM _ _ w) as [[a|e] w']; [exact I|]. destruct e; exact I.
  - intros file. unfold ocr_upload_and_classify, try_except.
    destruct (bindM _ _ w) as [[a|e] w']; [exact I|]. destruct e; exact I.
Qed.

(** *** The two upload endpoints side by side *)

Lemma classification_stage_total (txt : string) (w1 : World) :
  exists c w2,
    (if truthy (strip txt) then
       try_except (c <~ classify_text txt ;; ret (Some c)) (fun _ => ret None)
     else ret None) w1 = (Ok c, w2)
    /\ ocr_globals w2 = ocr_globals w1.
Proof.
  destruct (truthy (strip txt)); [|exists None, w1; split; reflexivity].
  unfold classify_text, get_model, model_predict, try_except, bindM, log, lift, ret.
  cbn [fst snd model_instance].
  destruct (Model.get_model (model_instance w1)) as [[m|e] mi]; cbn [ocr_globals].
  - destruct (Model.predict m txt) as [c|e]; eexists; eexists; split; reflexivity.
  - eexists; eexists; split; reflexivity.
Qed.

(** The two [except] clauses of the upload handlers as one translation *)
Lemma ocr_except_eq {A} (e : exn) (w : World) :
  @ocr_except A e w
  = (Raise match e with
           | HTTPException _ _ => e
           | _ => HTTPException 500
                    (String.append "OCR processing failed: " (str_exn e))
           end, w).
Proof. destruct e; reflexivity. Qed.

(** [ocr_upload_and_classify], stage by stage *)
Lemma upload_and_classify_run (file : UploadFile) (w : World) :
  ocr_upload_and_classify file w
  = match run_ocr file w with
    | (Ok r, w1) =>
        match (if truthy (strip (OcrModel.text r)) then
                 try_except (c <~ classify_text (OcrModel.text r) ;; ret (Some c))
                   (fun _ => ret None)
               else ret None) w1 with
        | (Ok c, w2) => (Ok {| ocr_result := r; classification := c |}, w2)
        | (Raise e, w2) => ocr_except e w2
        end
    | (Raise e, w1) => ocr_except e w1
    end.
Proof.
  unfold ocr_upload_and_classify. unfold try_except at 1. unfold bindM at 1.
  destruct (run_ocr file w) as [[r|e] w1]; [|reflexivity].
  unfold bindM at 1.
  destruct (truthy (strip (OcrModel.text r))); [|reflexivity].
  destruct (try_except _ _ w1) as [[c|e] w2]; reflexivity.
Qed.

(** The combined endpoint extends the plain one.  On the same request in
    the same state, a failure of [/ocr/upload] is the failure of
    [/ocr/upload-and-classify], with the same status, message and state;
    and when [/ocr/upload] returns a result, the combined endpoint succeeds
    too, with that result as its [ocr_result] and the OCR facade in the
    same state. *)
Theorem combined_extends_ocr_upload (file : UploadFile) (w : World) :
  (forall e w', ocr_upload file w = (Raise e, w') ->
                ocr_upload_and_classify file w = (Raise e, w'))
  /\
  (forall r w1, ocr_upload file w = (Ok r, w1) ->
     exists c w2,
       ocr_upload_and_classify file w
       = (Ok {| ocr_result := r; classification := c |}, w2)
       /\ ocr_globals w2 = ocr_globals w1).
Proof.
  rewrite ocr_upload_run, upload_and_classify_run.
  split.
  - intros e w'. unfold try_except at 1.
    destruct (run_ocr file w) as [[r|e0] w1]; [discriminate|].
    rewrite !ocr_except_eq. intros H. injection H as <- <-. reflexivity.
  - intros r w1. unfold try_except at 1.
    destruct (run_ocr file w) as [[r0|e0] w1'].
    + intros H. injection H as <- <-.
      destruct (classification_stage_total (OcrModel.text r0) w1')
        as [c [w2 [Hc Hg]]].
      exists c, w2. rewrite Hc. split; [reflexivity|exact Hg].
    + destruct e0; discriminate.
Qed.

(** When the OCR stage succeeds with a text that is not blank and the
    classifier answers, the response carries exactly what [POST /predict]
    answers for that text, unstripped, in the state the OCR stage left. *)
Theorem combined_classification_is_predict (file : UploadFile) (w w1 w2 : World)
    (r : OcrModel.OCRResult) (c : Model.Prediction) :
  run_ocr file w = (Ok r, w1) ->
  truthy (strip (OcrModel.text r)) = true ->
  predict (OcrModel.text r) w1 = (Ok c, w2) ->
  ocr_upload_and_classify file w
  = (Ok {| ocr_result := r; classification := Some c |}, w2).
Proof.
  intros Hrun Htext Hpred.
  unfold ocr_upload_and_classify, try_except at 1. unfold bindM at 1.
  rewrite Hrun. unfold bindM at 1. rewrite Htext.
  unfold predict, try_except, bindM in Hpred.
  unfold try_except, classify_text, bindM.
  destruct (get_model w1) as [[m|e] w1'] eqn:Hm; [|discriminate].
  destruct (model_predict m (OcrModel.text r) w1') as [[c'|e] w2'] eqn:Hp;
    [|discriminate].
  cbn in Hpred. injection Hpred as <- <-. reflexivity.
Qed.

(** A text of white space only counts as empty: the combined endpoint
    answers without a classification, in the state the OCR stage left. *)
Theorem blank_text_skips_classification (file : UploadFile) (w w1 : World)
    (r : OcrModel.OCRResult) :
  run_ocr file w = (Ok r, w1) ->
  strip (OcrModel.text r) = EmptyString ->
  ocr_upload_and_classify file w
  = (Ok {| ocr_result := r; classification := None |}, w1).
Proof.
  intros Hrun Hblank. apply upload_and_classify_blank; [exact Hrun|].
  rewrite Hblank. reflexivity.
Qed.

(** *** The configured OCR processor *)

Lemma split_nonempty (sep : ascii) (str : string) : split sep str <> [].
Proof.
  destruct str as [|c t]; cbn [split]; [discriminate|].
  destruct (Ascii.eqb c sep); [discriminate|].
  destruct (split sep t); discriminate.
Qed.

Lemma validate_state (file : UploadFile) (w w0 : World)
    (r : result OcrModel.Image) :
  validate_and_load_image file w = (r, w0) ->
  ocr_globals w0 = ocr_globals w /\ model_instance w0 = model_instance w.
Proof.
  unfold validate_and_load_image, raise.
  destruct (not_an_image file); [intros H; injection H as _ <-; auto|].
  destruct (max_upload_size <? _)%Z; [intros H; injection H as _ <-; auto|].
  unfold try_except, open_image, bindM, log, lift. cbn [fst snd].
  destruct (Image_open (file_data file)) as [im|e].
  - intros H; injection H as _ <-; auto.
  - destruct e; unfold raise; intros H; injection H as _ <-; auto.
Qed.

(** The processor that [get_configured_ocr_processor] returns works with
    exactly the languages of the setting, split at commas and stripped.
    That list is never empty, so the default languages are never put in
    its place, not even for an empty setting. *)
Theorem configured_languages_are_the_setting (w w' : World) (ref : nat) :
  get_configured_ocr_processor w = (Ok ref, w') ->
  exists p,
    OcrModel.deref (ocr_globals w') ref = Some p
    /\ OcrModel.languages p = map strip (split "," ocr_languages)
    /\ OcrModel.languages p <> []
    /\ (OcrModel.engine p = ocr_engine \/ OcrModel.engine p = lower ocr_engine).
Proof.
  unfold get_configured_ocr_processor, get_ocr_processor, bindM, log.
  cbn [fst snd ocr_globals].
  destruct (OcrModel.get_ocr_processor ocr_engine
              (Some (map strip (split "," ocr_languages))) (ocr_globals w))
    as [r g'] eqn:Hget.
  intros H. injection H as -> <-. cbn [ocr_globals].
  apply OcrMore.get_ocr_processor_result in Hget.
  destruct Hget as [_ [p [Hp [Hl He]]]].
  assert (Hne : map strip (split "," ocr_languages) <> []).
  { pose proof (split_nonempty "," ocr_languages).
    destruct (split "," ocr_languages); [congruence|discriminate]. }
  rewrite (OcrMore.languages_or_default_nonempty _ Hne) in Hl.
  exists p. rewrite Hl. auto.
Qed.

Lemma run_ocr_failure (file : UploadFile) (w w' : World) (e : exn) :
  run_ocr file w = (Raise e, w') ->
  ocr_upload file w = ocr_except e w'
  /\ ocr_upload_and_classify file w = ocr_except e w'.
Proof.
  intros H. rewrite ocr_upload_run, upload_and_classify_run.
  unfold try_except. rewrite H. split; reflexivity.
Qed.

(** With an OCR engine setting that is neither "easyocr" nor "tesseract",
    as written or in lower case, every upload that passes validation is
    answered 500 by both upload handlers, with a message that names the
    unknown engine. *)
Theorem unknown_engine_uploads_fail (file : UploadFile) (w w0 : World)
    (image : OcrModel.Image) :
  OcrSpec.unknown_engine ocr_engine ->
  OcrSpec.unknown_engine (lower ocr_engine) ->
  OcrSpec.globals_wf (ocr_globals w) ->
  validate_and_load_image file w = (Ok image, w0) ->
  exists name w',
    (name = ocr_engine \/ name = lower ocr_engine)
    /\ let err :=
         HTTPException 500
           (String.append "OCR processing failed: "
              (String.append "Unknown OCR engine: " name)) in
       ocr_upload file w = (Raise err, w')
       /\ ocr_upload_and_classify file w = (Raise err, w').
Proof.
  intros Hraw Hlow Hwf Hval.
  destruct (validate_state _ _ _ _ Hval) as [Hg0 _].
  assert (Hrun : exists name w',
             (name = ocr_engine \/ name = lower ocr_engine)
             /\ run_ocr file w
                = (Raise (ValueError (String.append "Unknown OCR engine: " name)), w')).
  { unfold run_ocr. unfold bindM at 1. rewrite Hval.
    unfold bindM at 1.
    unfold get_configured_ocr_processor, get_ocr_processor, bindM, log.
    cbn [fst snd ocr_globals]. rewrite Hg0.
    destruct (OcrModel.get_ocr_processor ocr_engine
                (Some (map strip (split "," ocr_languages))) (ocr_globals w))
      as [[ref|err] g1] eqn:Hget.
    - destruct (OcrMore.get_ocr_processor_result _ _ _ _ _ Hget)
        as [_ [p [Hp [_ He]]]].
      assert (Hunk : OcrSpec.unknown_engine (OcrModel.engine p))
        by (destruct He as [->| ->]; assumption).
      pose proof (OcrMore.process_image_unknown p image Hunk) as Hproc.
      unfold process_image, bindM, log, OcrModel.call_process_image.
      cbn [fst snd ocr_globals]. rewrite Hp.
      destruct (OcrModel.process_image p image) as [r p'].
      cbn [fst] in Hproc. subst r.
      exists (OcrModel.engine p). eexists. split; [exact He|reflexivity].
    - pose proof (OcrMore.get_ocr_processor_unknown ocr_engine
                    (Some (map strip (split "," ocr_languages)))
                    (ocr_globals w) err Hlow Hwf) as Herr.
      rewrite Hget in Herr. specialize (Herr eq_refl). subst err.
      exists (lower ocr_engine). eexists. split; [right; reflexivity|reflexivity]. }
  destruct Hrun as [name [w' [Hname Hrun]]].
  exists name, w'. split; [exact Hname|].
  apply run_ocr_failure in Hrun. exact Hrun.
Qed.

(** *** The classifier over the life of the process *)

Lemma keeps_model_ret {A} (m : Model.LegalTextClassifier) (a : A) :
  keeps_model m (ret a).
Proof. intros w H. exact H. Qed.

Lemma keeps_model_raise {A} (m : Model.LegalTextClassifier) (e : exn) :
  keeps_model m (@raise A e).
Proof. intros w H. exact H. Qed.

Lemma keeps_model_bind {A B} (m : Model.LegalTextClassifier) (c : M A)
    (k : A -> M B) :
  keeps_model m c -> (forall a, keeps_model m (k a)) -> keeps_model m (bindM c k).
Proof.
  intros Hc Hk w Hw. unfold bindM. specialize (Hc w Hw).
  destruct (c w) as [[a|e] w1]; cbn [snd] in *; [apply Hk; exact Hc|exact Hc].
Qed.

Lemma keeps_model_try {A} (m : Model.LegalTextClassifier) (c : M A)
    (h : exn -> M A) :
  keeps_model m c -> (forall e, keeps_model m (h e)) -> keeps_model m (try_except c h).
Proof.
  intros Hc Hh w Hw. unfold try_except. specialize (Hc w Hw).
  destruct (c w) as [[a|e] w1]; cbn [snd] in *; [exact Hc|apply Hh; exact Hc].
Qed.

Lemma keeps_model_only_logs {A} (m : Model.LegalTextClassifier)
    (P : event -> bool) (c : M A) :
  only_logs P c -> keeps_model m c.
Proof. intros Hc w Hw. destruct (Hc w) as [H _]. congruence. Qed.

Lemma get_model_cached (m : Model.LegalTextClassifier) (w : World) :
  model_instance w = Some m ->
  get_model w = (Ok m, {| model_instance := Some m; ocr_globals := ocr_globals w;
                          trace := trace w ++ [CallGetModel] |}).
Proof.
  intros H. unfold get_model, bindM, log. cbn [fst snd model_instance ocr_globals trace].
  rewrite H. reflexivity.
Qed.

Lemma keeps_model_get_model (m : Model.LegalTextClassifier) :
  keeps_model m get_model.
Proof. intros w H. rewrite (get_model_cached m w H). reflexivity. Qed.

Lemma keeps_model_classify (m : Model.LegalTextClassifier) (txt : string) :
  keeps_model m (classify_text txt).
Proof.
  unfold classify_text. apply keeps_model_bind; [apply keeps_model_get_model|].
  intros m'. unfold model_predict. apply keeps_model_bind.
  - eapply keeps_model_only_logs. apply (only_logs_log (fun _ => true)). reflexivity.
  - intros _. eapply keeps_model_only_logs. apply (only_logs_lift (fun _ => true)).
Qed.

Lemma keeps_model_serve (m : Model.LegalTextClassifier) (rq : request) (w : World) :
  model_instance w = Some m -> model_instance (serve rq w) = Some m.
Proof.
  revert w. destruct rq as [|text|texts|file|file]; cbn [serve].
  - apply keeps_model_try; [|intros e; apply keeps_model_raise].
    apply keeps_model_bind; [apply keeps_model_get_model|].
    intros m'. apply keeps_model_ret.
  - apply keeps_model_try; [|intros e; apply keeps_model_raise].
    apply keeps_model_bind; [apply keeps_model_get_model|]. intros m'.
    apply keeps_model_bind; [|intros r; apply keeps_model_ret].
    unfold model_predict. apply keeps_model_bind.
    + eapply keeps_model_only_logs. apply (only_logs_log (fun _ => true)). reflexivity.
    + intros _. eapply keeps_model_only_logs. apply (only_logs_lift (fun _ => true)).
  - apply keeps_model_try; [|intros e; apply keeps_model_raise].
    apply keeps_model_bind; [apply keeps_model_get_model|]. intros m'.
    apply keeps_model_bind; [|intros r; apply keeps_model_ret].
    unfold model_predict_batch. apply keeps_model_bind.
    + eapply keeps_model_only_logs. apply (only_logs_log (fun _ => true)). reflexivity.
    + intros _. eapply keeps_model_only_logs. apply (only_logs_lift (fun _ => true)).
  - intros w Hw. rewrite ocr_upload_run. revert w Hw.
    apply keeps_model_try.
    + eapply keeps_model_only_logs. apply run_ocr_only_logs.
    + intros e. unfold ocr_except. destruct e; apply keeps_model_raise.
  - apply keeps_model_try.
    + apply keeps_model_bind.
      * eapply keeps_model_only_logs. apply run_ocr_only_logs.
      * intros r. apply keeps_model_bind; [|intros c; apply keeps_model_ret].
        destruct (truthy (strip (OcrModel.text r))); [|apply keeps_model_ret].
        apply keeps_model_try; [|intros e; apply keeps_model_ret].
        apply keeps_model_bind; [apply keeps_model_classify|].
        intros c. apply keeps_model_ret.
    + intros e. unfold ocr_except. destruct e; apply keeps_model_raise.
Qed.

Lemma keeps_model_serve_all (m : Model.LegalTextClassifier) (rqs : list request) :
  forall w, model_instance w = Some m -> model_instance (serve_all rqs w) = Some m.
Proof.
  unfold serve_all. induction rqs as [|rq rqs IH]; intros w Hw; [exact Hw|].
  cbn [fold_left]. apply IH. apply keeps_model_serve. exact Hw.
Qed.

Lemma startup_loads (w0 w : World) :
  model_instance w0 = None ->
  lifespan_startup w0 = (Ok tt, w) ->
  model_instance w = Some {| Model.model_loaded := true |}.
Proof.
  intros H0. unfold lifespan_startup, try_except, get_model, bindM, log, ret, raise.
  cbn [fst snd model_instance]. rewrite H0.
  unfold Model.get_model, Model.load_model.
  destruct Model.from_pretrained; [discriminate|].
  intros H. injection H as <-. reflexivity.
Qed.

(** Once the startup hook has loaded the model in a fresh process, the
    classifier stays loaded whatever requests are served: after any
    sequence of requests the global still holds the loaded instance, the
    health check answers healthy with [model_loaded] true, and
    [POST /predict] answers what [predict] returns on the loaded
    classifier, an exception of the model as a 500. *)
Theorem started_server_stays_loaded (w0 w : World) (rqs : list request) :
  model_instance w0 = None ->
  lifespan_startup w0 = (Ok tt, w) ->
  let m := {| Model.model_loaded := true |} in
  model_instance (serve_all rqs w) = Some m
  /\ fst (health (serve_all rqs w))
     = Ok {| status := "healthy"; health_model_loaded := true |}
  /\ forall text,
       fst (predict text (serve_all rqs w))
       = match Model.predict m text with
         | Ok r => Ok r
         | Raise e =>
             Raise (HTTPException 500
                      (String.append "Prediction failed: " (str_exn e)))
         end.
Proof.
  intros H0 Hstart m.
  assert (Hm : model_instance (serve_all rqs w) = Some m).
  { apply keeps_model_serve_all. apply (startup_loads w0 w H0 Hstart). }
  split; [exact Hm|]. split.
  - rewrite (health_with_unloaded_instance _ m Hm). reflexivity.
  - intros text. unfold predict, try_except. unfold bindM at 1.
    rewrite (get_model_cached m _ Hm).
    unfold model_predict, bindM, log, lift, ret. cbn [fst snd].
    destruct (Model.predict m text); reflexivity.
Qed.

(** Without the startup hook a failed load sticks.  In a process whose
    model cannot be loaded, the first [POST /predict] answers 500 with the
    loader's message, and leaves an unloaded instance in the global; from
    then on [POST /predict] answers 500 with "Model not loaded", and the
    health check answers normally with [model_loaded] false, not 503.
    The startup hook itself passes the loader's exception on. *)
Theorem failed_load_sticks (w : World) (err : exn) (text : string) :
  Model.from_pretrained = Some err ->
  model_instance w = None ->
  let w1 := snd (predict text w) in
  fst (lifespan_startup w) = Raise err
  /\ fst (predict text w)
     = Raise (HTTPException 500 (String.append "Prediction failed: " (str_exn err)))
  /\ model_instance w1 = Some {| Model.model_loaded := false |}
  /\ (forall text',
        fst (predict text' w1)
        = Raise (HTTPException 500
                   "Prediction failed: Model not loaded. Call load_model() first."))
  /\ fst (health w1)
     = Ok {| status := "healthy"; health_model_loaded := false |}.
Proof.
  intros Hload Hnone w1.
  assert (Hget : get_model w
                 = (Raise err,
                    {| model_instance := Some {| Model.model_loaded := false |};
                       ocr_globals := ocr_globals w;
                       trace := trace w ++ [CallGetModel] |})).
  { unfold get_model, bindM, log. cbn [fst snd model_instance ocr_globals trace].
    rewrite Hnone. unfold Model.get_model, Model.load_model. rewrite Hload.
    reflexivity. }
  assert (Hw1 : model_instance w1 = Some {| Model.model_loaded := false |}).
  { subst w1. unfold predict, try_except. unfold bindM at 1. rewrite Hget.
    reflexivity. }
  split; [|split; [|split; [exact Hw1|split]]].
  - unfold lifespan_startup, try_except, bindM. rewrite Hget. reflexivity.
  - unfold predict, try_except. unfold bindM at 1. rewrite Hget. reflexivity.
  - intros text'. unfold predict, try_except. unfold bindM at 1.
    rewrite (get_model_cached _ _ Hw1). reflexivity.
  - rewrite (health_with_unloaded_instance _ _ Hw1). reflexivity.
Qed.

(** *** The two facades do not meet outside the combined endpoint *)

(** [POST /ocr/upload] never touches the classifier, whatever the request
    and whatever the outcome: the classifier global is as before and the
    trace gains no call of [get_model] or [predict], so the endpoint works
    the same whether or not the model can be loaded. *)
Theorem ocr_upload_leaves_classifier_alone (file : UploadFile) (w : World) :
  model_instance (snd (ocr_upload file w)) = model_instance w
  /\ exists evs, trace (snd (ocr_upload file w)) = trace w ++ evs
                 /\ forallb (fun ev => negb (classifier_event ev)) evs = true.
Proof.
  rewrite ocr_upload_run.
  apply (only_logs_try (fun ev => negb (classifier_event ev))
           (run_ocr file) ocr_except).
  - apply run_ocr_only_logs.
  - intros e. unfold ocr_except. destruct e; apply only_logs_raise.
Qed.

(** The health check and the two classification endpoints never touch the
    OCR facade: its globals are as before and the trace gains calls of the
    classifier only. *)
Theorem classifier_endpoints_leave_ocr_alone (w : World) :
  (ocr_globals (snd (health w)) = ocr_globals w
   /\ exists evs, trace (snd (health w)) = trace w ++ evs
                  /\ forallb classifier_event evs = true)
  /\ (forall text,
        ocr_globals (snd (predict text w)) = ocr_globals w
        /\ exists evs, trace (snd (predict text w)) = trace w ++ evs
                       /\ forallb classifier_event evs = true)
  /\ (forall texts,
        ocr_globals (snd (predict_batch texts w)) = ocr_globals w
        /\ exists evs, trace (snd (predict_batch texts w)) = trace w ++ evs
                       /\ forallb classifier_event evs = true).
Proof.
  split; [|split].
  - unfold health, get_model, try_except, bindM, log, ret, raise.
    cbn [fst snd model_instance].
    destruct (Model.get_model (model_instance w)) as [[m|e] mi];
      (split; [reflexivity|exists [CallGetModel]; split; reflexivity]).
  - intros text.
    unfold predict, get_model, model_predict, try_except, bindM, log, lift, ret, raise.
    cbn [fst snd model_instance].
    destruct (Model.get_model (model_instance w)) as [[m|e] mi].
    + destruct (Model.predict m text);
        (split; [reflexivity|]); exists [CallGetModel; CallPredict];
        cbn [trace]; rewrite <- app_assoc; split; reflexivity.
    + split; [reflexivity|exists [CallGetModel]; split; reflexivity].
  - intros texts.
    unfold predict_batch, get_model, model_predict_batch, try_except, bindM, log, lift,
      ret, raise.
    cbn [fst snd model_instance].
    destruct (Model.get_model (model_instance w)) as [[m|e] mi].
    + destruct (Model.predict_batch m texts);
        (split; [reflexivity|]); exists [CallGetModel; CallPredictBatch];
        cbn [trace]; rewrite <- app_assoc; split; reflexivity.
    + split; [reflexivity|exists [CallGetModel]; split; reflexivity].
Qed.

End WithService.

Lemma validate_accepts_iff_witness :
  validate_and_load_image (settings := Samples.tight_settings)
    (pil := Samples.pillow) Samples.eight_byte_upload initial_world
  = (Ok "PNG scan"%string,
     {| model_instance := None; ocr_globals := OcrModel.initial_globals;
        trace := [CallImageOpen] |}).
Proof.
  apply (proj2 (validate_accepts_iff (settings := Samples.tight_settings)
                  (pil := Samples.pillow) Samples.eight_byte_upload initial_world
                  _ "PNG scan"%string)).
  split; [exists "image/png"%string; split; reflexivity|].
  split; [cbn; lia|]. split; reflexivity.
Defined.

Lemma decoder_error_is_server_error_witness :
  let err :=
    HTTPException 500
      "OCR processing failed: Image size exceeds limit, could be decompression bomb" in
  let w' := {| model_instance := None; ocr_globals := OcrModel.initial_globals;
               trace := [CallImageOpen] |} in
  ocr_upload (settings := Samples.settings) (pil := Samples.wary_pillow)
    Samples.scan_upload initial_world = (Raise err, w')
  /\ ocr_upload_and_classify (settings := Samples.settings)
       (tf := Samples.two_label_model) (pil := Samples.wary_pillow)
       Samples.scan_upload initial_world = (Raise err, w').
Proof.
  apply (decoder_error_is_server_error (settings := Samples.settings)
           (tf := Samples.two_label_model) (pil := Samples.wary_pillow)
           Samples.scan_upload initial_world
           (BackendError "Image size exceeds limit, could be decompression bomb")).
  - reflexivity.
  - cbn. lia.
  - reflexivity.
  - exact I.
Defined.

Lemma combined_extends_ocr_upload_witness :
  (exists w',
     ocr_upload_and_classify (settings := Samples.settings)
       (tf := Samples.two_label_model) (pil := Samples.pillow)
       Samples.text_upload initial_world
     = (Raise (HTTPException 400 "File must be an image"), w'))
  /\
  (exists r c w2,
     OcrModel.text r = "Dieu 1. Pham vi"%string
     /\ ocr_upload_and_classify (settings := Samples.settings)
          (tf := Samples.two_label_model) (pil := Samples.pillow)
          Samples.scan_upload initial_world
        = (Ok {| ocr_result := r; classification := c |}, w2)).
Proof.
  split.
  - eexists.
    apply (proj1 (combined_extends_ocr_upload (settings := Samples.settings)
                    (tf := Samples.two_label_model) (pil := Samples.pillow)
                    Samples.text_upload initial_world)).
    reflexivity.
  - destruct (proj2 (combined_extends_ocr_upload (settings := Samples.settings)
                       (tf := Samples.two_label_model) (pil := Samples.pillow)
                       Samples.scan_upload initial_world) _ _ eq_refl)
      as [c [w2 [H _]]].
    eexists. exists c, w2. split; [|exact H]. reflexivity.
Defined.

Lemma combined_classification_is_predict_witness :
  exists r c w2,
    ocr_upload_and_classify (settings := Samples.settings)
      (tf := Samples.single_label_model) (pil := Samples.pillow)
      Samples.scan_upload initial_world
    = (Ok {| ocr_result := r; classification := Some c |}, w2)
    /\ Model.predicted_class c = 0
    /\ Model.predicted_label c = Some "LEGAL"%string
    /\ trace w2 = [CallImageOpen; CallGetOcrProcessor; CallProcessImage;
                   CallGetModel; CallPredict].
Proof.
  eexists. eexists. eexists. split.
  - eapply (combined_classification_is_predict (settings := Samples.settings)
              (tf := Samples.single_label_model) (pil := Samples.pillow)
              Samples.scan_upload initial_world).
    + reflexivity.
    + reflexivity.
    + reflexivity.
  - repeat split.
Defined.

Lemma blank_text_skips_classification_witness :
  exists r w1,
    OcrModel.text r = " "%string
    /\ List.length (OcrModel.lines r) = 2
    /\ ocr_upload_and_classify (settings := Samples.settings)
         (tf := Samples.two_label_model) (pil := Samples.smudge_pillow)
         Samples.scan_upload initial_world
       = (Ok {| ocr_result := r; classification := None |}, w1).
Proof.
  eexists. eexists. split; [|split].
  3: { eapply (blank_text_skips_classification (settings := Samples.settings)
                 (tf := Samples.two_label_model) (pil := Samples.smudge_pillow)
                 Samples.scan_upload initial_world).
       - reflexivity.
       - reflexivity. }
  - reflexivity.
  - reflexivity.
Defined.

Lemma configured_languages_are_the_setting_witness :
  exists p,
    OcrModel.deref
      {| OcrModel.objects :=
           [ {| OcrModel.engine := "easyocr"; OcrModel.languages := [""%string];
                OcrModel.reader := Some [""%string];
                OcrModel._initialized := true |} ];
         OcrModel._ocr_processor := Some 0 |} 0 = Some p
    /\ OcrModel.languages p = [""%string]
    /\ OcrModel.languages p <> []
    /\ (OcrModel.engine p = "easyocr"%string \/ OcrModel.engine p = "easyocr"%string).
Proof.
  apply (configured_languages_are_the_setting
           (settings := Samples.no_language_settings) (ocr := Samples.engines)
           initial_world
           {| model_instance := None;
              ocr_globals :=
                {| OcrModel.objects :=
                     [ {| OcrModel.engine := "easyocr";
                          OcrModel.languages := [""%string];
                          OcrModel.reader := Some [""%string];
                          OcrModel._initialized := true |} ];
                   OcrModel._ocr_processor := Some 0 |};
              trace := [CallGetOcrProcessor] |} 0).
  reflexivity.
Defined.

Lemma unknown_engine_uploads_fail_witness :
  exists name w',
    (name = "PaddleOCR"%string \/ name = "paddleocr"%string)
    /\ let err :=
         HTTPException 500
           (String.append "OCR processing failed: "
              (String.append "Unknown OCR engine: " name)) in
       ocr_upload (settings := Samples.paddle_settings) (pil := Samples.pillow)
         Samples.scan_upload initial_world = (Raise err, w')
       /\ ocr_upload_and_classify (settings := Samples.paddle_settings)
            (tf := Samples.two_label_model) (pil := Samples.pillow)
            Samples.scan_upload initial_world = (Raise err, w').
Proof.
  apply (unknown_engine_uploads_fail (settings := Samples.paddle_settings)
           (tf := Samples.two_label_model) (pil := Samples.pillow)
           Samples.scan_upload initial_world
           {| model_instance := None; ocr_globals := OcrModel.initial_globals;
              trace := [CallImageOpen] |} "PNG scan"%string).
  - split; discriminate.
  - split; discriminate.
  - intros ref H. discriminate.
  - reflexivity.
Defined.

Lemma started_server_stays_loaded_witness :
  let rqs := [PostPredict "Dieu 1."; PostOcrUploadAndClassify Samples.scan_upload;
              PostOcrUpload Samples.text_upload; GetHealth] in
  let w := serve_all (settings := Samples.settings) (tf := Samples.single_label_model)
             (pil := Samples.pillow) rqs
             (snd (lifespan_startup (tf := Samples.single_label_model) initial_world)) in
  let m := {| Model.model_loaded := true |} in
  model_instance w = Some m
  /\ fst (health (tf := Samples.single_label_model) w)
     = Ok {| status := "healthy"; health_model_loaded := true |}
  /\ forall text,
       fst (predict (tf := Samples.single_label_model) text w)
       = match Model.predict (tf := Samples.single_label_model) m text with
         | Ok r => Ok r
         | Raise e =>
             Raise (HTTPException 500
                      (String.append "Prediction failed: " (str_exn e)))
         end.
Proof.
  intros rqs w m.
  apply (started_server_stays_loaded (settings := Samples.settings)
           (tf := Samples.single_label_model) (pil := Samples.pillow)
           initial_world _ rqs).
  - reflexivity.
  - reflexivity.
Defined.

Lemma failed_load_sticks_witness :
  let w1 := snd (predict (tf := Samples.unreachable_model) "Dieu 1." initial_world) in
  fst (lifespan_startup (tf := Samples.unreachable_model) initial_world)
  = Raise (OSError "Can't load tokenizer")
  /\ fst (predict (tf := Samples.unreachable_model) "Dieu 1." initial_world)
     = Raise (HTTPException 500 "Prediction failed: Can't load tokenizer")
  /\ model_instance w1 = Some {| Model.model_loaded := false |}
  /\ (forall text',
        fst (predict (tf := Samples.unreachable_model) text' w1)
        = Raise (HTTPException 500
                   "Prediction failed: Model not loaded. Call load_model() first."))
  /\ fst (health (tf := Samples.unreachable_model) w1)
     = Ok {| status := "healthy"; health_model_loaded := false |}.
Proof.
  apply (failed_load_sticks (tf := Samples.unreachable_model) initial_world
           (OSError "Can't load tokenizer") "Dieu 1."%string).
  - reflexivity.
  - reflexivity.
Defined.

End ApiMore.
